(** * ow, a Nextcloud command-line client: a model of main.py and its properties

    The script is a single pass: parse the arguments, check the path, strip the
    sync folder from the resolved path, then dispatch on the action to one of
    three remote operations (PROPFIND for the file id, LOCK/UNLOCK, POST of a
    public share) and print a link.  The model follows the script statement by
    statement.  Standard output, the error stream and the requests handed to
    the HTTP library are threaded through a small state-and-exit monad; the
    file system, the server, the XML parser and argparse's usage line are the
    fields of an environment record.

    The script imports xml.etree.cElementTree, which Python has up to 3.8;
    the model is of a run whose imports succeed and whose arguments argparse
    has accepted. *)

From Stdlib Require Import String Ascii List ZArith Lia Bool DecimalString.
Import ListNotations.
Local Open Scope string_scope.

(** ** Python values and built-ins used by the script *)

Module Py.

(** A Python [str] is kept as its UTF-8 bytes. *)

Definition dquote : string := String (ascii_of_nat 34) EmptyString.
Definition newline : string := String (ascii_of_nat 10) EmptyString.

(** [str(n)] for an [int]. *)
Definition str_of_int (z : Z) : string := NilZero.string_of_int (Z.to_int z).

(** [f'{v}'] for a value that is a [str] or [None]. *)
Definition fmt (v : option string) : string :=
  match v with
  | Some s => s
  | None => "None"
  end.

(** [sep.join(parts)]. *)
Definition join (sep : string) (parts : list string) : string :=
  String.concat sep parts.

(** [x in [a, b, ...]] on strings. *)
Definition in_list (x : string) (l : list string) : bool :=
  existsb (String.eqb x) l.

(** [s[1:]]: the string without its first character.  A character is a code
    point, so the first byte goes together with the continuation bytes
    (10xxxxxx) that follow it. *)
Definition is_continuation (c : ascii) : bool :=
  (128 <=? nat_of_ascii c)%nat && (nat_of_ascii c <? 192)%nat.

Fixpoint drop_continuation (s : string) : string :=
  match s with
  | EmptyString => EmptyString
  | String c t => if is_continuation c then drop_continuation t else s
  end.

Definition slice_from_1 (s : string) : string :=
  match s with
  | EmptyString => EmptyString
  | String _ t => drop_continuation t
  end.

(** [re.sub(pattern, repl, s)] for a pattern without regular-expression
    metacharacters, which then matches exactly its own text.  The scan goes
    left to right; every match found is replaced and the scan resumes behind
    it, so all non-overlapping occurrences go.  [skip] counts the characters
    of a match still to be passed over. *)
Definition is_meta (c : ascii) : bool :=
  existsb (Ascii.eqb c)
    (list_ascii_of_string ".^$*+?{}[]\|()").

Definition literal_pattern (p : string) : bool :=
  forallb (fun c => negb (is_meta c)) (list_ascii_of_string p).

Fixpoint sub_scan (pat repl : string) (skip : nat) (s : string) : string :=
  match s with
  | EmptyString => EmptyString
  | String c t =>
      match skip with
      | S k => sub_scan pat repl k t
      | O =>
          if prefix pat s
          then repl ++ sub_scan pat repl (String.length pat - 1) t
          else String c (sub_scan pat repl O t)
      end
  end.

(** An empty pattern matches at every position: [repl] goes before every
    character and at the end. *)
Fixpoint sub_everywhere (repl : string) (s : string) : string :=
  match s with
  | EmptyString => repl
  | String c t => repl ++ String c (sub_everywhere repl t)
  end.

Definition re_sub (pat repl s : string) : string :=
  match pat with
  | EmptyString => sub_everywhere repl s
  | String _ _ => sub_scan pat repl O s
  end.

(** [needle in haystack] on strings. *)
Fixpoint contains (needle haystack : string) : bool :=
  prefix needle haystack ||
  match haystack with
  | EmptyString => false
  | String _ t => contains needle t
  end.

End Py.

(** ** xml.etree: the element tree and [findtext] *)

Module ET.

(** An element has a tag (in {namespace}local form when it is namespaced),
    a text that is [None] when the element has no character data before its
    first child, and its children in document order.  Attributes and tails are
    not read by the script. *)
#[warnings="-register-all"]
Inductive Element : Type :=
  Node (tag : string) (text : option string) (children : list Element).

Definition tag_of (e : Element) : string :=
  match e with Node t _ _ => t end.

Definition text_of (e : Element) : option string :=
  match e with Node _ x _ => x end.

Definition children_of (e : Element) : list Element :=
  match e with Node _ _ cs => cs end.

(** [elem.iter()]: the element, then its subtree, in document order. *)
Fixpoint iter (e : Element) : list Element :=
  match e with
  | Node _ _ cs =>
      e :: (fix iter_all (l : list Element) : list Element :=
              match l with
              | [] => []
              | c :: l' => (iter c ++ iter_all l')%list
              end) cs
  end.

Fixpoint iter_all (l : list Element) : list Element :=
  match l with
  | [] => []
  | c :: l' => (iter c ++ iter_all l')%list
  end.

(** The elements the path [.//tag] selects from [root]: ElementPath walks
    [root.iter(tag)] and leaves out [root] itself. *)
Definition select_descendants (root : Element) (tag : string) : list Element :=
  filter (fun e => String.eqb (tag_of e) tag) (iter_all (children_of root)).

(** The text [findtext] hands out for an element it found: an element
    without text counts as the empty string. *)
Definition value_of (e : Element) : string :=
  match text_of e with
  | None => EmptyString
  | Some t => t
  end.

(** [root.findtext('.//' + tag)]: the text of the first element selected,
    [None] when nothing is selected. *)
Definition findtext (root : Element) (tag : string) : option string :=
  match select_descendants root tag with
  | [] => None
  | e :: _ => Some (value_of e)
  end.

(** [e] is the first element below [root] that carries [tag], in document
    order: the element the response is read by. *)
Definition first_below (root : Element) (tag : string) (e : Element) : Prop :=
  exists before after,
    iter_all (children_of root) = (before ++ e :: after)%list /\
    (forall x, In x before -> tag_of x <> tag) /\
    tag_of e = tag.

(** The document holds an element with this tag and this text, anywhere from
    the root down. *)
Definition holds (root : Element) (tag value : string) : bool :=
  existsb (fun e => String.eqb (tag_of e) tag && String.eqb (value_of e) value) (iter root).

End ET.

(** ** requests: what is sent and what comes back *)

Module Requests.

Inductive Value : Type :=
  | VStr (s : string)
  | VInt (z : Z).

Inductive Payload : Type :=
  | NoData
  | RawData (body : string)
  | FormData (fields : list (string * Value)).

Record Request : Type := mkRequest {
  method : string;
  url : string;
  auth : string * string;
  headers : list (string * string);
  data : Payload
}.

Record Response : Type := mkResponse {
  status_code : Z;
  text : string
}.

(** [Response.ok], which [Response.__bool__] returns: [raise_for_status]
    raises for 400 <= status < 500 (client error) and for 500 <= status < 600
    (server error) and for nothing else. *)
Definition ok (r : Response) : bool :=
  negb ((400 <=? status_code r)%Z && (status_code r <? 600)%Z).

(** A call either raises [requests.RequestException] (with its message) or
    returns a response. *)
Inductive Reply : Type :=
  | RequestException (e : string)
  | Answer (r : Response).

End Requests.

Import Requests.

(** ** The process: output streams, requests sent, exit *)

Record Console : Type := mkConsole {
  stdout : list string;   (* what was written to sys.stdout, in order *)
  stderr : list string;   (* what was written to sys.stderr, in order *)
  sent : list Request     (* the requests handed to the HTTP library, in order *)
}.

Definition fresh : Console := mkConsole [] [] [].

(** How a run stops early: [sys.exit(code)], or an exception nobody catches
    (the interpreter then prints a traceback and the exit status is 1). *)
Inductive Stop : Type :=
  | SysExit (code : Z)
  | Uncaught (exception : string).

Inductive Step (A : Type) : Type :=
  | Next (a : A)
  | Halt (s : Stop).

Arguments Next {A} a.
Arguments Halt {A} s.

Definition Proc (A : Type) : Type := Console -> Step A * Console.

Definition ret {A : Type} (a : A) : Proc A := fun c => (Next a, c).

Definition bind {A B : Type} (p : Proc A) (k : A -> Proc B) : Proc B :=
  fun c =>
    match p c with
    | (Next a, c') => k a c'
    | (Halt s, c') => (Halt s, c')
    end.

Declare Scope proc_scope.
Delimit Scope proc_scope with proc.
Notation "x <- p ;; k" := (bind p (fun x => k))
  (at level 61, p at next level, right associativity) : proc_scope.
Notation "p ;; k" := (bind p (fun _ => k))
  (at level 61, right associativity) : proc_scope.
Local Open Scope proc_scope.

Definition print_stdout (line : string) : Proc unit :=
  fun c => (Next tt, mkConsole (stdout c ++ [line]) (stderr c) (sent c)).

Definition print_stderr (line : string) : Proc unit :=
  fun c => (Next tt, mkConsole (stdout c) (stderr c ++ [line]) (sent c)).

Definition sys_exit {A : Type} (code : Z) : Proc A :=
  fun c => (Halt (SysExit code), c).

Definition raise {A : Type} (exception : string) : Proc A :=
  fun c => (Halt (Uncaught exception), c).

(** [if b: body] as a statement. *)
Definition when (b : bool) (body : Proc unit) : Proc unit :=
  if b then body else ret tt.

(** Reading a local variable that may not have been assigned. *)
Definition read_local (name : string) (v : option string) : Proc string :=
  match v with
  | Some x => ret x
  | None => raise "UnboundLocalError"
  end.

(** The exit status the shell sees. *)
Definition exit_status {A : Type} (s : Step A) : Z :=
  match s with
  | Next _ => 0
  | Halt (SysExit code) => code
  | Halt (Uncaught _) => 1
  end.

(** ** Configuration (lines 30-49) *)

Definition nextcloudWebdavFileRoot : string := "remote.php/dav/files".
Definition nextcloudOcsShareApiRoot : string := "ocs/v2.php/apps/files_sharing/api/v1".
Definition nextcloudServer : string := "http://localhost:8080".
Definition localSyncFolder : string := "/home/user/Nextcloud".
Definition remoteDestinationFolder : string := "/".
Definition nextcloudUsername : string := "admin".
Definition nextcloudPassword : string := "admin".

(** ** Arguments (lines 55-59)

    argparse admits exactly the ten spellings listed in [choices]; with any
    other word [parse_args] ends the process before line 61 is reached. *)

Inductive Action : Type :=
  | Act_h | Act_html_link
  | Act_i | Act_internal_link
  | Act_l | Act_lock
  | Act_q | Act_quick_album
  | Act_u | Act_unlock.

Definition action_name (a : Action) : string :=
  match a with
  | Act_h => "h" | Act_html_link => "html-link"
  | Act_i => "i" | Act_internal_link => "internal-link"
  | Act_l => "l" | Act_lock => "lock"
  | Act_q => "q" | Act_quick_album => "quick-album"
  | Act_u => "u" | Act_unlock => "unlock"
  end.

Record Args : Type := mkArgs {
  args_debug : bool;
  args_action : Action;
  args_path : string
}.

(** ** What the script takes from its platform *)

Record Env : Type := mkEnv {
  os_path_exists : string -> bool;
  os_path_realpath : string -> string;
  server : Request -> Reply;                  (* the outcome of an HTTP call *)
  fromstring : string -> option ET.Element;   (* [None]: the parser raises ParseError *)
  usage : string                              (* argparse's usage line *)
}.

(** ** Pure parts of the script *)

(** Line 76. *)
Definition relativePathOnly (realpath : string) : string :=
  Py.slice_from_1 (Py.re_sub localSyncFolder EmptyString realpath).

(** Line 80. *)
Definition fileurl_of (relative : string) : string :=
  Py.join "/" [nextcloudServer; nextcloudWebdavFileRoot; nextcloudUsername; relative].

(** Line 83. *)
Definition _auth : string * string := (nextcloudUsername, nextcloudPassword).

(** Lines 88-93: the triple-quoted request body, with its line breaks and
    indentation. *)
Definition _propfindBody : string :=
  "<?xml version=" ++ Py.dquote ++ "1.0" ++ Py.dquote ++
  " encoding=" ++ Py.dquote ++ "UTF-8" ++ Py.dquote ++ "?>" ++ Py.newline ++
  "    <d:propfind xmlns:d=" ++ Py.dquote ++ "DAV:" ++ Py.dquote ++ ">" ++ Py.newline ++
  "      <d:prop xmlns:oc=" ++ Py.dquote ++ "http://owncloud.org/ns" ++ Py.dquote ++ ">" ++ Py.newline ++
  "        <oc:fileid/>" ++ Py.newline ++
  "      </d:prop>" ++ Py.newline ++
  "    </d:propfind>".

Definition fileid_tag : string := "{http://owncloud.org/ns}fileid".

(** Lines 147-148. *)
Definition renderInternalUrl (nextcloudServer fileId : string) : string :=
  nextcloudServer ++ "/f/" ++ fileId.

(** Lines 180-181: the two preview URLs of a share; [token] and [fileId] are
    what [findtext] gave, formatted as an f-string formats them. *)
Definition large_image_url (token fileId : option string) : string :=
  Py.join "/" [nextcloudServer;
    "apps/files_sharing/publicpreview/" ++ Py.fmt token ++ "?file=/&fileId=" ++ Py.fmt fileId
      ++ "&x=4096&y=4096&a=true"].

Definition preview_image_url (token fileId : option string) : string :=
  Py.join "/" [nextcloudServer;
    "apps/files_sharing/publicpreview/" ++ Py.fmt token ++ "?file=/&fileId=" ++ Py.fmt fileId
      ++ "&x=300&y=300&a=true"].

(** The dictionary [sharePath] returns. *)
Record ShareData : Type := mkShareData {
  publicShareUrl : option string;
  fileId : option string;
  largeImageUrl : string;
  previewImageUrl : string
}.

(** Line 201 and line 209. *)
Definition html_link (internalUrl relative : string) : string :=
  "<a href=" ++ Py.dquote ++ internalUrl ++ Py.dquote ++ ">" ++ relative ++ "</a>".

Definition album_link (large preview : string) : string :=
  "<a href=" ++ Py.dquote ++ large ++ Py.dquote ++ "><img src=" ++ Py.dquote ++ preview
    ++ Py.dquote ++ "></a>".

(** [repr] of the one-entry header dictionaries the script formats; keys and
    values hold no quote or escape. *)
Definition repr_headers (h : list (string * string)) : string :=
  "{" ++ Py.join ", " (map (fun kv => "'" ++ fst kv ++ "': '" ++ snd kv ++ "'") h) ++ "}".

(** The three calls the script makes: line 96, line 132 and lines 153-161. *)
Definition propfind_request (auth : string * string) (fileurl : string) : Request :=
  mkRequest "PROPFIND" fileurl auth [] (RawData _propfindBody).

Definition lock_headers : list (string * string) := [("X-User-Lock", "1")].

Definition lock_request (method fileurl : string) : Request :=
  mkRequest method fileurl _auth lock_headers NoData.

Definition sharesUrl : string :=
  Py.join "/" [nextcloudServer; nextcloudOcsShareApiRoot; "shares"].

Definition share_request (auth : string * string) (rootedServerPath : string) : Request :=
  mkRequest "POST" sharesUrl auth [("OCS-APIRequest", "true")]
    (FormData [("attributes", VStr "[]");
               ("path", VStr rootedServerPath);
               ("shareType", VInt 3)]).

Definition status_report (marker : string) (r : Response) : string :=
  marker ++ " HTTP response code " ++ Py.str_of_int (status_code r)
    ++ ". Response text: " ++ text r.

(** ** The script *)

Section Script.

Variable env : Env.
Variable args : Args.

(** Lines 61-63. *)
Definition debug (msg : string) : Proc unit :=
  when (args_debug args) (print_stderr msg).

(** [requests.request(...)] and [requests.post(...)]: the call is recorded and
    the environment says how it ends. *)
Definition requests_request (r : Request) : Proc Reply :=
  fun c => (Next (server env r), mkConsole (stdout c) (stderr c) (sent c ++ [r])).

(** [cET.fromstring(text)]; its ParseError is caught nowhere in the script. *)
Definition cET_fromstring (body : string) : Proc ET.Element :=
  match fromstring env body with
  | Some root => ret root
  | None => raise "ParseError"
  end.

(** Lines 85-117. *)
Definition getFileId (auth : string * string) (fileurl : string) : Proc string :=
  debug "🏃 fetching internal file ID..." ;;
  reply <- requests_request (propfind_request auth fileurl) ;;
  response <- match reply with
              | RequestException e =>
                  print_stderr ("⛔ PROPFIND request failed: " ++ e) ;; sys_exit 1
              | Answer r => ret r
              end ;;
  when (negb (ok response))
    (print_stderr (status_report "⛔" response) ;; sys_exit 1) ;;
  debug (status_report "📝" response) ;;
  root <- cET_fromstring (text response) ;;
  let found := ET.findtext root fileid_tag in
  debug ("🗃️ fileId is " ++ Py.fmt found) ;;
  match found with
  | None => print_stderr (status_report "⛔" response) ;; sys_exit 1
  | Some v => ret v
  end.

(** Lines 120-125: the assignment of [method].  The last branch prints and
    falls through, leaving the variable unassigned. *)
Definition assign_method (action : string) : Proc (option string) :=
  if String.eqb action "lock" then ret (Some "LOCK")
  else if String.eqb action "unlock" then ret (Some "UNLOCK")
  else print_stderr ("⛔ internal error. action=" ++ action) ;; ret None.

Definition lock_failed (action : string) : string :=
  "⛔ " ++ action ++ " failed. Is the Temporary files lock app installed? If attempting to lock, is it already locked by someone/something else? If attempting to unlock, is the path actually locked?".

(** Lines 119-145.  The f-string of line 128 is the first read of [method];
    it is evaluated whether or not debugging is on.  The request goes out
    with the module-level [_auth], not the parameter. *)
Definition lockOrUnlock (action : string) (auth : string * string) (fileurl : string)
  : Proc unit :=
  assigned <- assign_method action ;;
  let headers := lock_headers in
  method <- read_local "method" assigned ;;
  debug ("📄 request: " ++ method ++ " " ++ fileurl) ;;
  debug ("📎 headers: " ++ repr_headers headers) ;;
  reply <- requests_request (lock_request method fileurl) ;;
  response <- match reply with
              | RequestException e =>
                  print_stderr ("⛔ request failed: " ++ e) ;; sys_exit 1
              | Answer r => ret r
              end ;;
  when (negb (ok response))
    (print_stderr (lock_failed action) ;;
     print_stderr ("📄 HTTP request was " ++ method ++ " " ++ fileurl) ;;
     print_stderr (status_report "📨" response) ;;
     sys_exit 1) ;;
  debug (status_report "📝" response).

(** Lines 150-182. *)
Definition sharePath (auth : string * string) (rootedServerPath : string)
  : Proc ShareData :=
  debug ("🏃 share " ++ rootedServerPath ++ "...") ;;
  reply <- requests_request (share_request auth rootedServerPath) ;;
  response <- match reply with
              | RequestException e =>
                  print_stderr ("⛔ POST request failed: " ++ e) ;; sys_exit 1
              | Answer r => ret r
              end ;;
  when (negb (ok response))
    (print_stderr (status_report "⛔" response) ;; sys_exit 1) ;;
  debug (status_report "📝" response) ;;
  root <- cET_fromstring (text response) ;;
  let file_source := ET.findtext root "file_source" in
  let token := ET.findtext root "token" in
  ret (mkShareData (ET.findtext root "url") file_source
         (large_image_url token file_source)
         (preview_image_url token file_source)).

(** Lines 184-209: the five [if] statements on [args.action], one after the
    other. *)
Definition dispatch (relative _fileurl : string) : Proc unit :=
  let action := action_name (args_action args) in
  when (Py.in_list action ["i"; "internal-link"])
    (id <- getFileId _auth _fileurl ;;
     print_stdout (renderInternalUrl nextcloudServer id)) ;;
  when (Py.in_list action ["l"; "lock"])
    (debug "🏃 locking..." ;;
     lockOrUnlock "lock" _auth _fileurl ;;
     debug "🔒 success!") ;;
  when (Py.in_list action ["u"; "unlock"])
    (debug "🏃 unlocking..." ;;
     lockOrUnlock "unlock" _auth _fileurl ;;
     debug "🔓 success!") ;;
  when (Py.in_list action ["h"; "html-link"])
    (id <- getFileId _auth _fileurl ;;
     let internalUrl := renderInternalUrl nextcloudServer id in
     print_stdout (html_link internalUrl relative)) ;;
  when (Py.in_list action ["q"; "quick-album"])
    (debug "🏃 quick albuming..." ;;
     data <- sharePath _auth ("/" ++ relative) ;;
     print_stdout (album_link (largeImageUrl data) (previewImageUrl data))).

(** Lines 65-81, then the dispatch: the module body. *)
Definition main : Proc unit :=
  debug ("👟 action is " ++ action_name (args_action args)) ;;
  when (negb (os_path_exists env (args_path args)))
    (print_stderr "⛔ Error: path does not exist" ;;
     print_stdout (usage env) ;;       (* parser.print_usage() writes to sys.stdout *)
     sys_exit 1) ;;
  let realpath := os_path_realpath env (args_path args) in
  debug ("📁 absolute path is " ++ realpath) ;;
  let relative := relativePathOnly realpath in
  debug ("🗂️ relative path is " ++ relative) ;;
  let _fileurl := fileurl_of relative in
  debug ("💻 WebDAV path is " ++ _fileurl) ;;
  dispatch relative _fileurl.

End Script.

(** A whole run, from empty streams. *)
Definition run (env : Env) (args : Args) : Step unit * Console :=
  main env args fresh.

Definition exit_code (env : Env) (args : Args) : Z := exit_status (fst (run env args)).
Definition printed (env : Env) (args : Args) : list string := stdout (snd (run env args)).
Definition diagnostics (env : Env) (args : Args) : list string := stderr (snd (run env args)).
Definition remote_calls (env : Env) (args : Args) : list Request := sent (snd (run env args)).

(** The relative path the script works with, and the request each action
    puts on the wire for it (lines 184-209 read together with the three
    request builders). *)
Definition target (env : Env) (args : Args) : string :=
  relativePathOnly (os_path_realpath env (args_path args)).

Definition request_of (a : Action) (relative : string) : Request :=
  match a with
  | Act_i | Act_internal_link | Act_h | Act_html_link =>
      propfind_request _auth (fileurl_of relative)
  | Act_l | Act_lock => lock_request "LOCK" (fileurl_of relative)
  | Act_u | Act_unlock => lock_request "UNLOCK" (fileurl_of relative)
  | Act_q | Act_quick_album => share_request _auth ("/" ++ relative)
  end.

(** ** The relative path in the words of the specification

    "P's resolved absolute path with the sync-root prefix and one leading
    separator removed", for a path under the sync root: the root itself or
    the root followed by a separator and more. *)

Fixpoint strip_prefix (p s : string) : option string :=
  match p with
  | EmptyString => Some s
  | String a p' =>
      match s with
      | EmptyString => None
      | String b s' => if Ascii.eqb a b then strip_prefix p' s' else None
      end
  end.

Definition strip_separator (s : string) : string :=
  match s with
  | String "/" t => t
  | _ => s
  end.

Definition spec_relative_path (realpath : string) : option string :=
  option_map strip_separator (strip_prefix localSyncFolder realpath).

Definition under_sync_root (realpath : string) : bool :=
  match strip_prefix localSyncFolder realpath with
  | Some EmptyString => true
  | Some (String "/" _) => true
  | _ => false
  end.

(** A string that starts at a character boundary: empty, or its first byte
    is not a continuation byte.  Every well-formed text does. *)
Definition at_boundary (s : string) : bool :=
  match s with
  | EmptyString => true
  | String c _ => negb (Py.is_continuation c)
  end.

(** ** Bookkeeping for the streams *)

(** [emit c out err reqs]: the console [c] after more output. *)
Definition emit (c : Console) (out err : list string) (reqs : list Request) : Console :=
  mkConsole (stdout c ++ out) (stderr c ++ err) (sent c ++ reqs).

(** The lines [debug] adds for [l]: all of them under --debug, none otherwise. *)
Definition dbg (args : Args) (l : list string) : list string :=
  if args_debug args then l else [].

(** The two actions the dispatcher passes, with the method each assigns. *)
Definition lock_pair (action method : string) : Prop :=
  (action = "lock" /\ method = "LOCK") \/ (action = "unlock" /\ method = "UNLOCK").

(** ** Sample environments

    A platform that answers every question the same way: whether the path
    exists, what it resolves to, how the HTTP call ends, and what the parser
    makes of a body. *)

Definition usage_line : string :=
  "usage: main.py [-h] [-d] {h,html-link,i,internal-link,l,lock,q,quick-album,u,unlock} path"
    ++ Py.newline.

Definition fixed_env (found : bool) (realpath : string) (reply : Reply)
    (parser : string -> option ET.Element) : Env :=
  mkEnv (fun _ => found) (fun _ => realpath) (fun _ => reply) parser usage_line.

(** A parser that knows one document, and one that is never given XML. *)
Definition reading (body : string) (tree : ET.Element) : string -> option ET.Element :=
  fun s => if String.eqb s body then Some tree else None.

Definition unread : string -> option ET.Element := fun _ => None.

(** A file that lies under the sync folder in a directory tree that repeats
    the sync folder's own path. *)
Definition nested_realpath : string := "/home/user/Nextcloud/home/user/Nextcloud/a.txt".

Definition cat_realpath : string := "/home/user/Nextcloud/photos/cat.jpg".

(** Answers to PROPFIND, each as the text on the wire (written on one line)
    and as the tree the parser makes of it: for one file, for a folder (the
    folder first, then what is in it), and with no entry at all. *)
Definition propstat_text (href id : string) : string :=
  "<d:response><d:href>" ++ href ++ "</d:href><d:propstat><d:prop><oc:fileid>" ++ id
    ++ "</oc:fileid></d:prop><d:status>HTTP/1.1 200 OK</d:status></d:propstat></d:response>".

Definition multistatus_text (entries : string) : string :=
  "<d:multistatus xmlns:d='DAV:' xmlns:oc='http://owncloud.org/ns'>" ++ entries
    ++ "</d:multistatus>".

Definition propstat_of (href id : string) : ET.Element :=
  ET.Node "{DAV:}response" None
    [ET.Node "{DAV:}href" (Some href) [];
     ET.Node "{DAV:}propstat" None
       [ET.Node "{DAV:}prop" None [ET.Node fileid_tag (Some id) []];
        ET.Node "{DAV:}status" (Some "HTTP/1.1 200 OK") []]].

Definition cat_body : string :=
  multistatus_text (propstat_text "/remote.php/dav/files/admin/photos/cat.jpg" "42").

Definition multistatus_cat : ET.Element :=
  ET.Node "{DAV:}multistatus" None
    [propstat_of "/remote.php/dav/files/admin/photos/cat.jpg" "42"].

Definition folder_body : string :=
  multistatus_text
    (propstat_text "/remote.php/dav/files/admin/photos/" "123"
       ++ propstat_text "/remote.php/dav/files/admin/photos/cat.jpg" "456").

Definition multistatus_folder : ET.Element :=
  ET.Node "{DAV:}multistatus" None
    [propstat_of "/remote.php/dav/files/admin/photos/" "123";
     propstat_of "/remote.php/dav/files/admin/photos/cat.jpg" "456"].

Definition empty_body : string := "<d:multistatus xmlns:d='DAV:'></d:multistatus>".

Definition multistatus_empty : ET.Element := ET.Node "{DAV:}multistatus" None [].

(** A document that is nothing but the fileid element. *)
Definition lone_fileid_body : string :=
  "<oc:fileid xmlns:oc='http://owncloud.org/ns'>123</oc:fileid>".

Definition lone_fileid : ET.Element := ET.Node fileid_tag (Some "123") [].

(** Answers to the share request, complete and with the token left out. *)
Definition ocs_text (fields : string) : string :=
  "<ocs><meta><status>ok</status></meta><data>" ++ fields ++ "</data></ocs>".

Definition ocs_of (fields : list ET.Element) : ET.Element :=
  ET.Node "ocs" None
    [ET.Node "meta" None [ET.Node "status" (Some "ok") []];
     ET.Node "data" None fields].

Definition share_body : string :=
  ocs_text "<url>http://localhost:8080/s/tok1</url><file_source>99</file_source><token>tok1</token>".

Definition share_complete : ET.Element :=
  ocs_of [ET.Node "url" (Some "http://localhost:8080/s/tok1") [];
          ET.Node "file_source" (Some "99") [];
          ET.Node "token" (Some "tok1") []].

Definition share_body_without_token : string :=
  ocs_text "<url>http://localhost:8080/s/tok1</url><file_source>99</file_source>".

Definition share_without_token : ET.Element :=
  ocs_of [ET.Node "url" (Some "http://localhost:8080/s/tok1") [];
          ET.Node "file_source" (Some "99") []].

Definition folder_realpath : string := "/home/user/Nextcloud/photos".

(** The message of the one validation the script makes (line 68). *)
Definition path_error : string := "⛔ Error: path does not exist".

(** A path outside the sync folder that spells the sync folder further down. *)
Definition backup_realpath : string := "/mnt/backup/home/user/Nextcloud/a.txt".

(** A result other than the error of reading an unassigned variable, and
    lines none of which is the validation error. *)
Definition settled {A : Type} (s : Step A) : Prop :=
  s <> Halt (Uncaught "UnboundLocalError").

Definition no_path_error (lines : list string) : Prop :=
  Forall (fun l => l <> path_error) lines.

(** ** Notions for the properties of whole runs *)

(** The actions that only lock or unlock. *)
Definition lock_family (a : Action) : bool :=
  match a with
  | Act_l | Act_lock | Act_u | Act_unlock => true
  | _ => false
  end.

(** The long spelling of an action. *)
Definition long_name (a : Action) : Action :=
  match a with
  | Act_h => Act_html_link
  | Act_i => Act_internal_link
  | Act_l => Act_lock
  | Act_q => Act_quick_album
  | Act_u => Act_unlock
  | other => other
  end.

(** The error stream of a run past the path check: the four debug lines of
    lines 65-81, then [rest]. *)
Definition after_prologue (env : Env) (args : Args) (rest : list string) : list string :=
  (dbg args [("👟 action is " ++ action_name (args_action args))%string]
     ++ dbg args [("📁 absolute path is " ++ os_path_realpath env (args_path args))%string]
     ++ dbg args [("🗂️ relative path is " ++ target env args)%string]
     ++ dbg args [("💻 WebDAV path is " ++ fileurl_of (target env args))%string]
     ++ rest)%list.

(** How a result and the lines written with it go together: a value comes
    with debug lines only, [sys.exit] with status 1 and at least one line,
    and the one exception that escapes is the parser's, again with debug
    lines only. *)
Definition verdict {A : Type} (args : Args) (res : Step A) (lines : list string) : Prop :=
  match res with
  | Next _ => args_debug args = false -> lines = []
  | Halt (SysExit code) => code = 1%Z /\ lines <> []
  | Halt (Uncaught e) => e = "ParseError" /\ (args_debug args = false -> lines = [])
  end.

(** Two outcomes, or two programs, that differ at most in what they wrote to
    the error stream. *)
Definition same_effects {A : Type} (x y : Step A * Console) : Prop :=
  fst x = fst y /\ stdout (snd x) = stdout (snd y) /\ sent (snd x) = sent (snd y).

Definition agree {A : Type} (p q : Proc A) : Prop :=
  forall c1 c2,
    stdout c1 = stdout c2 -> sent c1 = sent c2 -> same_effects (p c1) (q c2).

(** * Properties *)

(** ** The process monad *)

Lemma emit_nothing (c : Console) : emit c [] [] [] = c.
Proof.
  destruct c as [o e r]. unfold emit. cbn. now rewrite !app_nil_r.
Qed.

Lemma emit_emit (c : Console) (o1 o2 e1 e2 : list string) (r1 r2 : list Request) :
  emit (emit c o1 e1 r1) o2 e2 r2 = emit c (o1 ++ o2) (e1 ++ e2) (r1 ++ r2).
Proof.
  unfold emit. cbn. now rewrite !app_assoc.
Qed.

Lemma bind_next {A B : Type} (p : Proc A) (k : A -> Proc B) (c c' : Console) (a : A) :
  p c = (Next a, c') -> bind p k c = k a c'.
Proof.
  intros H. unfold bind. now rewrite H.
Qed.

Lemma bind_halt {A B : Type} (p : Proc A) (k : A -> Proc B) (c c' : Console) (s : Stop) :
  p c = (Halt s, c') -> bind p k c = (Halt s, c').
Proof.
  intros H. unfold bind. now rewrite H.
Qed.

Lemma print_stdout_emit (line : string) (c : Console) :
  print_stdout line c = (Next tt, emit c [line] [] []).
Proof.
  unfold print_stdout, emit. now rewrite !app_nil_r.
Qed.

Lemma print_stderr_emit (line : string) (c : Console) :
  print_stderr line c = (Next tt, emit c [] [line] []).
Proof.
  unfold print_stderr, emit. now rewrite !app_nil_r.
Qed.

Lemma debug_emit (args : Args) (msg : string) (c : Console) :
  debug args msg c = (Next tt, emit c [] (dbg args [msg]) []).
Proof.
  unfold debug, when, dbg. destruct (args_debug args).
  - apply print_stderr_emit.
  - now rewrite emit_nothing.
Qed.

Lemma requests_request_emit (env : Env) (r : Request) (c : Console) :
  requests_request env r c = (Next (server env r), emit c [] [] [r]).
Proof.
  unfold requests_request, emit. now rewrite !app_nil_r.
Qed.

Lemma dbg_app (args : Args) (l1 l2 : list string) :
  (dbg args l1 ++ dbg args l2)%list = dbg args (l1 ++ l2).
Proof.
  unfold dbg. now destruct (args_debug args).
Qed.

Lemma bind_ret {A B : Type} (a : A) (k : A -> Proc B) (c : Console) :
  bind (ret a) k c = k a c.
Proof. reflexivity. Qed.

Lemma bind_sys_exit {A B : Type} (code : Z) (k : A -> Proc B) (c : Console) :
  bind (sys_exit code) k c = (Halt (SysExit code), c).
Proof. reflexivity. Qed.

Lemma bind_raise {A B : Type} (e : string) (k : A -> Proc B) (c : Console) :
  bind (raise e) k c = (Halt (Uncaught e), c).
Proof. reflexivity. Qed.

Lemma bind_bind {A B C : Type} (p : Proc A) (f : A -> Proc B) (g : B -> Proc C)
    (c : Console) :
  bind (bind p f) g c = bind p (fun a => bind (f a) g) c.
Proof.
  unfold bind. destruct (p c) as [[a | s] c']; reflexivity.
Qed.

(** Running a sequence: reassociate, push the console through the first
    statement, then merge what was emitted. *)
Ltac proc_head :=
  first
    [ rewrite bind_bind
    | rewrite bind_ret
    | rewrite bind_sys_exit
    | rewrite bind_raise
    | rewrite (bind_next _ _ _ _ _ (debug_emit _ _ _))
    | rewrite (bind_next _ _ _ _ _ (print_stderr_emit _ _))
    | rewrite (bind_next _ _ _ _ _ (print_stdout_emit _ _))
    | rewrite (bind_next _ _ _ _ _ (requests_request_emit _ _ _))
    | rewrite debug_emit
    | rewrite print_stderr_emit
    | rewrite print_stdout_emit ].

Ltac proc_run :=
  repeat (cbv beta iota delta [when negb]; proc_head);
  cbv beta iota delta [when negb];
  rewrite ?emit_emit;
  rewrite ?app_nil_r; rewrite <- ?app_assoc;
  cbn [app].

(** ** The three remote operations, case by case *)

Section Operations.

Variable env : Env.
Variable args : Args.

Lemma getFileId_rejected auth url c r :
  server env (propfind_request auth url) = Answer r ->
  ok r = false ->
  getFileId env args auth url c =
  (Halt (SysExit 1),
   emit c [] (dbg args ["🏃 fetching internal file ID..."] ++ [status_report "⛔" r])
     [propfind_request auth url]).
Proof.
  intros Hsrv Hok. unfold getFileId.
  proc_run. rewrite Hsrv. proc_run. rewrite Hok. proc_run.
  reflexivity.
Qed.

Lemma getFileId_transport auth url c e :
  server env (propfind_request auth url) = RequestException e ->
  getFileId env args auth url c =
  (Halt (SysExit 1),
   emit c []
     (dbg args ["🏃 fetching internal file ID..."] ++ ["⛔ PROPFIND request failed: " ++ e])
     [propfind_request auth url]).
Proof.
  intros Hsrv. unfold getFileId.
  proc_run. rewrite Hsrv. proc_run.
  reflexivity.
Qed.

Lemma getFileId_malformed auth url c r :
  server env (propfind_request auth url) = Answer r ->
  ok r = true ->
  fromstring env (text r) = None ->
  getFileId env args auth url c =
  (Halt (Uncaught "ParseError"),
   emit c []
     (dbg args ["🏃 fetching internal file ID..."] ++ dbg args [status_report "📝" r])
     [propfind_request auth url]).
Proof.
  intros Hsrv Hok Hxml. unfold getFileId, cET_fromstring.
  proc_run. rewrite Hsrv. proc_run. rewrite Hok. proc_run. rewrite Hxml. proc_run.
  reflexivity.
Qed.

Lemma getFileId_missing auth url c r root :
  server env (propfind_request auth url) = Answer r ->
  ok r = true ->
  fromstring env (text r) = Some root ->
  ET.findtext root fileid_tag = None ->
  getFileId env args auth url c =
  (Halt (SysExit 1),
   emit c []
     (dbg args ["🏃 fetching internal file ID..."] ++ dbg args [status_report "📝" r]
        ++ dbg args ["🗃️ fileId is None"] ++ [status_report "⛔" r])
     [propfind_request auth url]).
Proof.
  intros Hsrv Hok Hxml Hfind. unfold getFileId, cET_fromstring.
  proc_run. rewrite Hsrv. proc_run. rewrite Hok. proc_run. rewrite Hxml. proc_run.
  rewrite Hfind. proc_run.
  reflexivity.
Qed.

Lemma getFileId_found auth url c r root v :
  server env (propfind_request auth url) = Answer r ->
  ok r = true ->
  fromstring env (text r) = Some root ->
  ET.findtext root fileid_tag = Some v ->
  getFileId env args auth url c =
  (Next v,
   emit c []
     (dbg args ["🏃 fetching internal file ID..."] ++ dbg args [status_report "📝" r]
        ++ dbg args ["🗃️ fileId is " ++ v])
     [propfind_request auth url]).
Proof.
  intros Hsrv Hok Hxml Hfind. unfold getFileId, cET_fromstring.
  proc_run. rewrite Hsrv. proc_run. rewrite Hok. proc_run. rewrite Hxml. proc_run.
  rewrite Hfind. proc_run.
  reflexivity.
Qed.

Lemma assign_method_pair action method c :
  lock_pair action method -> assign_method action c = (Next (Some method), c).
Proof.
  intros [[-> ->] | [-> ->]]; reflexivity.
Qed.

Lemma assign_method_other action c :
  action <> "lock" -> action <> "unlock" ->
  assign_method action c =
  (Next None, emit c [] ["⛔ internal error. action=" ++ action] []).
Proof.
  intros Hl Hu. unfold assign_method.
  apply String.eqb_neq in Hl. apply String.eqb_neq in Hu.
  rewrite Hl, Hu. proc_run. reflexivity.
Qed.

Lemma lockOrUnlock_transport action method auth url c e :
  lock_pair action method ->
  server env (lock_request method url) = RequestException e ->
  lockOrUnlock env args action auth url c =
  (Halt (SysExit 1),
   emit c []
     (dbg args ["📄 request: " ++ method ++ " " ++ url]
        ++ dbg args ["📎 headers: " ++ repr_headers lock_headers]
        ++ ["⛔ request failed: " ++ e])
     [lock_request method url]).
Proof.
  intros Hp Hsrv. unfold lockOrUnlock, read_local.
  rewrite (bind_next _ _ _ _ _ (assign_method_pair _ _ _ Hp)).
  proc_run. rewrite Hsrv. proc_run.
  reflexivity.
Qed.

Lemma lockOrUnlock_rejected action method auth url c r :
  lock_pair action method ->
  server env (lock_request method url) = Answer r ->
  ok r = false ->
  lockOrUnlock env args action auth url c =
  (Halt (SysExit 1),
   emit c []
     (dbg args ["📄 request: " ++ method ++ " " ++ url]
        ++ dbg args ["📎 headers: " ++ repr_headers lock_headers]
        ++ [lock_failed action;
            "📄 HTTP request was " ++ method ++ " " ++ url;
            status_report "📨" r])
     [lock_request method url]).
Proof.
  intros Hp Hsrv Hok. unfold lockOrUnlock, read_local.
  rewrite (bind_next _ _ _ _ _ (assign_method_pair _ _ _ Hp)).
  proc_run. rewrite Hsrv. proc_run. rewrite Hok. proc_run.
  reflexivity.
Qed.

Lemma lockOrUnlock_accepted action method auth url c r :
  lock_pair action method ->
  server env (lock_request method url) = Answer r ->
  ok r = true ->
  lockOrUnlock env args action auth url c =
  (Next tt,
   emit c []
     (dbg args ["📄 request: " ++ method ++ " " ++ url]
        ++ dbg args ["📎 headers: " ++ repr_headers lock_headers]
        ++ dbg args [status_report "📝" r])
     [lock_request method url]).
Proof.
  intros Hp Hsrv Hok. unfold lockOrUnlock, read_local.
  rewrite (bind_next _ _ _ _ _ (assign_method_pair _ _ _ Hp)).
  proc_run. rewrite Hsrv. proc_run. rewrite Hok. proc_run.
  reflexivity.
Qed.

Lemma lockOrUnlock_unassigned action auth url c :
  action <> "lock" -> action <> "unlock" ->
  lockOrUnlock env args action auth url c =
  (Halt (Uncaught "UnboundLocalError"),
   emit c [] ["⛔ internal error. action=" ++ action] []).
Proof.
  intros Hl Hu. unfold lockOrUnlock, read_local.
  rewrite (bind_next _ _ _ _ _ (assign_method_other _ _ Hl Hu)).
  proc_run. reflexivity.
Qed.

Lemma sharePath_transport auth rooted c e :
  server env (share_request auth rooted) = RequestException e ->
  sharePath env args auth rooted c =
  (Halt (SysExit 1),
   emit c [] (dbg args ["🏃 share " ++ rooted ++ "..."] ++ ["⛔ POST request failed: " ++ e])
     [share_request auth rooted]).
Proof.
  intros Hsrv. unfold sharePath.
  proc_run. rewrite Hsrv. proc_run.
  reflexivity.
Qed.

Lemma sharePath_rejected auth rooted c r :
  server env (share_request auth rooted) = Answer r ->
  ok r = false ->
  sharePath env args auth rooted c =
  (Halt (SysExit 1),
   emit c [] (dbg args ["🏃 share " ++ rooted ++ "..."] ++ [status_report "⛔" r])
     [share_request auth rooted]).
Proof.
  intros Hsrv Hok. unfold sharePath.
  proc_run. rewrite Hsrv. proc_run. rewrite Hok. proc_run.
  reflexivity.
Qed.

Lemma sharePath_malformed auth rooted c r :
  server env (share_request auth rooted) = Answer r ->
  ok r = true ->
  fromstring env (text r) = None ->
  sharePath env args auth rooted c =
  (Halt (Uncaught "ParseError"),
   emit c [] (dbg args ["🏃 share " ++ rooted ++ "..."] ++ dbg args [status_report "📝" r])
     [share_request auth rooted]).
Proof.
  intros Hsrv Hok Hxml. unfold sharePath, cET_fromstring.
  proc_run. rewrite Hsrv. proc_run. rewrite Hok. proc_run. rewrite Hxml. proc_run.
  reflexivity.
Qed.

Lemma sharePath_parsed auth rooted c r root :
  server env (share_request auth rooted) = Answer r ->
  ok r = true ->
  fromstring env (text r) = Some root ->
  sharePath env args auth rooted c =
  (Next (mkShareData (ET.findtext root "url") (ET.findtext root "file_source")
           (large_image_url (ET.findtext root "token") (ET.findtext root "file_source"))
           (preview_image_url (ET.findtext root "token") (ET.findtext root "file_source"))),
   emit c [] (dbg args ["🏃 share " ++ rooted ++ "..."] ++ dbg args [status_report "📝" r])
     [share_request auth rooted]).
Proof.
  intros Hsrv Hok Hxml. unfold sharePath, cET_fromstring.
  proc_run. rewrite Hsrv. proc_run. rewrite Hok. proc_run. rewrite Hxml. proc_run.
  reflexivity.
Qed.

End Operations.

(** ** The module body *)

Section Body.

Variable env : Env.
Variable args : Args.

Lemma bind_ret_tt (p : Proc unit) (c : Console) :
  bind p (fun _ => ret tt) c = p c.
Proof.
  unfold bind, ret. destruct (p c) as [[[] | s] c']; reflexivity.
Qed.

Lemma main_missing c :
  os_path_exists env (args_path args) = false ->
  main env args c =
  (Halt (SysExit 1),
   emit c [usage env]
     (dbg args ["👟 action is " ++ action_name (args_action args)]
        ++ ["⛔ Error: path does not exist"])
     []).
Proof.
  intros Hex. unfold main. rewrite Hex.
  proc_run. reflexivity.
Qed.

Lemma main_existing c :
  os_path_exists env (args_path args) = true ->
  main env args c =
  dispatch env args (target env args) (fileurl_of (target env args))
    (emit c []
       (dbg args ["👟 action is " ++ action_name (args_action args)]
          ++ dbg args ["📁 absolute path is " ++ os_path_realpath env (args_path args)]
          ++ dbg args ["🗂️ relative path is " ++ target env args]
          ++ dbg args ["💻 WebDAV path is " ++ fileurl_of (target env args)])
       []).
Proof.
  intros Hex. unfold main, target. rewrite Hex.
  proc_run. reflexivity.
Qed.

Lemma dispatch_internal_link relative url c :
  args_action args = Act_i \/ args_action args = Act_internal_link ->
  dispatch env args relative url c =
  bind (getFileId env args _auth url)
    (fun id => print_stdout (renderInternalUrl nextcloudServer id)) c.
Proof.
  intros [H | H]; unfold dispatch; rewrite H; exact (bind_ret_tt _ c).
Qed.

Lemma dispatch_html_link relative url c :
  args_action args = Act_h \/ args_action args = Act_html_link ->
  dispatch env args relative url c =
  bind (getFileId env args _auth url)
    (fun id => print_stdout (html_link (renderInternalUrl nextcloudServer id) relative)) c.
Proof.
  intros [H | H]; unfold dispatch; rewrite H; exact (bind_ret_tt _ c).
Qed.

Lemma dispatch_lock relative url c :
  args_action args = Act_l \/ args_action args = Act_lock ->
  dispatch env args relative url c =
  bind (debug args "🏃 locking...")
    (fun _ => bind (lockOrUnlock env args "lock" _auth url)
                (fun _ => debug args "🔒 success!")) c.
Proof.
  intros [H | H]; unfold dispatch; rewrite H; exact (bind_ret_tt _ c).
Qed.

Lemma dispatch_unlock relative url c :
  args_action args = Act_u \/ args_action args = Act_unlock ->
  dispatch env args relative url c =
  bind (debug args "🏃 unlocking...")
    (fun _ => bind (lockOrUnlock env args "unlock" _auth url)
                (fun _ => debug args "🔓 success!")) c.
Proof.
  intros [H | H]; unfold dispatch; rewrite H; exact (bind_ret_tt _ c).
Qed.

Lemma dispatch_quick_album relative url c :
  args_action args = Act_q \/ args_action args = Act_quick_album ->
  dispatch env args relative url c =
  bind (debug args "🏃 quick albuming...")
    (fun _ => bind (sharePath env args _auth ("/" ++ relative))
                (fun data =>
                   print_stdout (album_link (largeImageUrl data) (previewImageUrl data)))) c.
Proof.
  intros [H | H]; unfold dispatch; rewrite H; reflexivity.
Qed.

End Body.

(** ** Stripping the sync folder *)

Lemma string_app_assoc (a b c : string) : (a ++ b) ++ c = a ++ (b ++ c).
Proof.
  induction a as [| x a IH]; cbn; [reflexivity | now rewrite IH].
Qed.

(** The configured sync folder has no metacharacter: as a pattern it matches
    its own text and nothing else. *)
Lemma localSyncFolder_is_literal : Py.literal_pattern localSyncFolder = true.
Proof. reflexivity. Qed.

Lemma prefix_append (p s : string) : prefix p (p ++ s) = true.
Proof.
  induction p as [| a p IH]; cbn.
  - now destruct s.
  - destruct (ascii_dec a a) as [_ | Hne]; [exact IH | now elim Hne].
Qed.

Lemma sub_scan_skip (pat repl p s : string) :
  Py.sub_scan pat repl (String.length p) (p ++ s) = Py.sub_scan pat repl 0 s.
Proof.
  induction p as [| a p IH]; cbn; [reflexivity | exact IH].
Qed.

Lemma sub_scan_absent (pat repl s : string) :
  Py.contains pat s = false -> Py.sub_scan pat repl 0 s = s.
Proof.
  induction s as [| c t IH]; intros H.
  - reflexivity.
  - cbn [Py.contains] in H. apply orb_false_elim in H as [Hp Ht].
    cbn [Py.sub_scan]. rewrite Hp. now rewrite (IH Ht).
Qed.

Lemma re_sub_leading (a : ascii) (p rest : string) :
  Py.contains (String a p) rest = false ->
  Py.re_sub (String a p) EmptyString (String a p ++ rest) = rest.
Proof.
  intros H. unfold Py.re_sub.
  change (String a p ++ rest) with (String a (p ++ rest)).
  cbn [Py.sub_scan].
  change (String a (p ++ rest)) with (String a p ++ rest).
  rewrite prefix_append.
  cbn [String.length Nat.sub]. rewrite Nat.sub_0_r.
  rewrite sub_scan_skip. cbn [append]. now apply sub_scan_absent.
Qed.

Lemma strip_prefix_append (p s rest : string) :
  strip_prefix p s = Some rest -> s = p ++ rest.
Proof.
  revert s. induction p as [| a p IH]; intros s H; cbn in H.
  - now injection H as ->.
  - destruct s as [| b s]; [discriminate |].
    destruct (Ascii.eqb a b) eqn:E; [| discriminate].
    apply Ascii.eqb_eq in E. subst b. cbn. f_equal. now apply IH.
Qed.

Lemma relativePathOnly_leading (rest : string) :
  Py.contains localSyncFolder rest = false ->
  relativePathOnly (localSyncFolder ++ rest) = Py.slice_from_1 rest.
Proof.
  intros H. unfold relativePathOnly. f_equal.
  now apply (re_sub_leading "/" "home/user/Nextcloud").
Qed.

Lemma slice_after_separator (rest : string) :
  match rest with
  | EmptyString => True
  | String c _ => c = "/"%char
  end ->
  at_boundary (strip_separator rest) = true ->
  Py.slice_from_1 rest = strip_separator rest.
Proof.
  destruct rest as [| c r]; [reflexivity |].
  intros -> Hb. cbn in *.
  destruct r as [| d r]; [reflexivity |].
  cbn in *. apply negb_true_iff in Hb. now rewrite Hb.
Qed.

(** X1: where the script and the specification agree.  A path under the
    sync folder whose remainder does not spell the sync folder again (and is
    well-formed text) is reduced to exactly the remainder behind one
    separator. *)
Theorem relativePathOnly_single_occurrence (realpath rest : string) :
  strip_prefix localSyncFolder realpath = Some rest ->
  under_sync_root realpath = true ->
  Py.contains localSyncFolder rest = false ->
  at_boundary (strip_separator rest) = true ->
  spec_relative_path realpath = Some (relativePathOnly realpath).
Proof.
  intros Hs Hu Hc Hb.
  unfold spec_relative_path. rewrite Hs. cbn [option_map]. f_equal.
  rewrite (strip_prefix_append _ _ _ Hs).
  rewrite (relativePathOnly_leading _ Hc).
  symmetry. apply slice_after_separator; [| exact Hb].
  unfold under_sync_root in Hu. rewrite Hs in Hu.
  destruct rest as [| c r]; [exact I |].
  destruct (Ascii.eqb c "/") eqn:E.
  - now apply Ascii.eqb_eq in E.
  - exfalso. destruct c as [[] [] [] [] [] [] [] []]; try discriminate.
Qed.

Lemma relativePathOnly_single_occurrence_cat :
  spec_relative_path cat_realpath = Some (relativePathOnly cat_realpath).
Proof.
  apply (relativePathOnly_single_occurrence cat_realpath "/photos/cat.jpg");
    reflexivity.
Defined.

(** ** C1: the relative path of a file under the sync folder

    Claim C1 asks that every path under the sync folder, also one that
    contains the sync folder's path again further down, is reduced to the
    path behind the leading sync folder and one separator.  The script
    removes every occurrence: for
    /home/user/Nextcloud/home/user/Nextcloud/a.txt, which is under the sync
    folder, the answer asked for is home/user/Nextcloud/a.txt, the script
    computes a.txt, and the PROPFIND goes out for that other file. *)
Theorem relativePathOnly_nested_sync_root :
  under_sync_root nested_realpath = true /\
  spec_relative_path nested_realpath = Some "home/user/Nextcloud/a.txt" /\
  relativePathOnly nested_realpath = "a.txt" /\
  remote_calls
    (fixed_env true nested_realpath (Answer (mkResponse 207 cat_body)) (reading cat_body multistatus_cat))
    (mkArgs false Act_i "a.txt")
  = [propfind_request _auth "http://localhost:8080/remote.php/dav/files/admin/a.txt"].
Proof.
  repeat split; vm_compute; reflexivity.
Qed.

(** ** The status check *)

Lemma ok_true_iff (r : Response) :
  ok r = true <-> ~ (400 <= status_code r < 600)%Z.
Proof.
  unfold ok. rewrite negb_true_iff, andb_false_iff, Z.leb_gt, Z.ltb_ge. lia.
Qed.

Lemma ok_false_iff (r : Response) :
  ok r = false <-> (400 <= status_code r < 600)%Z.
Proof.
  unfold ok. rewrite negb_false_iff, andb_true_iff, Z.leb_le, Z.ltb_lt. lia.
Qed.

(** Entering the branch of the dispatch that belongs to the action, and
    reading the streams off the final console. *)
Ltac enter_dispatch :=
  first
    [ rewrite dispatch_internal_link by (cbn; tauto)
    | rewrite dispatch_html_link by (cbn; tauto)
    | rewrite dispatch_lock by (cbn; tauto)
    | rewrite dispatch_unlock by (cbn; tauto)
    | rewrite dispatch_quick_album by (cbn; tauto) ].

Ltac streams :=
  rewrite ?emit_emit;
  cbn [fst snd stdout stderr sent emit fresh exit_status app].

Lemma lock_pair_lock : lock_pair "lock" "LOCK".
Proof. left. split; reflexivity. Qed.

Lemma lock_pair_unlock : lock_pair "unlock" "UNLOCK".
Proof. right. split; reflexivity. Qed.

(** A status the check turns down ends every action the same way: status 1,
    one request sent, standard output untouched. *)
Lemma run_rejected (env : Env) (args : Args) (r : Response) :
  os_path_exists env (args_path args) = true ->
  server env (request_of (args_action args) (target env args)) = Answer r ->
  ok r = false ->
  exists lines,
    run env args =
    (Halt (SysExit 1),
     mkConsole [] lines [request_of (args_action args) (target env args)]).
Proof.
  intros Hex Hsrv Hok. unfold run.
  rewrite (main_existing env args fresh Hex).
  set (c := emit fresh [] _ []).
  destruct (args_action args) eqn:Ha; cbn [request_of] in Hsrv |- *;
    enter_dispatch.
  1, 2, 3, 4:
    rewrite (bind_halt _ _ _ _ _ (getFileId_rejected env args _ _ c r Hsrv Hok));
    subst c; streams; eexists; reflexivity.
  1, 2:
    proc_run;
    rewrite (bind_halt _ _ _ _ _
               (lockOrUnlock_rejected env args _ _ _auth _ _ r lock_pair_lock Hsrv Hok));
    subst c; streams; eexists; reflexivity.
  1, 2:
    proc_run;
    rewrite (bind_halt _ _ _ _ _ (sharePath_rejected env args _ _ _ r Hsrv Hok));
    subst c; streams; eexists; reflexivity.
  1, 2:
    proc_run;
    rewrite (bind_halt _ _ _ _ _
               (lockOrUnlock_rejected env args _ _ _auth _ _ r lock_pair_unlock Hsrv Hok));
    subst c; streams; eexists; reflexivity.
Qed.

(** X2: the part of the status rule that holds for every action.  A 4xx or
    5xx answer is fatal, with exit status 1, nothing on standard output and
    nothing sent beyond the one request. *)
Theorem error_status_is_fatal (env : Env) (args : Args) (r : Response) :
  os_path_exists env (args_path args) = true ->
  server env (request_of (args_action args) (target env args)) = Answer r ->
  (400 <= status_code r < 600)%Z ->
  exit_code env args = 1%Z /\
  printed env args = [] /\
  remote_calls env args = [request_of (args_action args) (target env args)].
Proof.
  intros Hex Hsrv Hst. apply ok_false_iff in Hst.
  destruct (run_rejected env args r Hex Hsrv Hst) as [lines Hrun].
  unfold exit_code, printed, remote_calls. rewrite Hrun. cbn. auto.
Qed.

Lemma error_status_is_fatal_unlock_404 :
  exit_code (fixed_env true cat_realpath (Answer (mkResponse 404 "Not Found")) unread)
    (mkArgs true Act_unlock "cat.jpg") = 1%Z /\
  printed (fixed_env true cat_realpath (Answer (mkResponse 404 "Not Found")) unread)
    (mkArgs true Act_unlock "cat.jpg") = [] /\
  remote_calls (fixed_env true cat_realpath (Answer (mkResponse 404 "Not Found")) unread)
    (mkArgs true Act_unlock "cat.jpg")
  = [lock_request "UNLOCK" (fileurl_of "photos/cat.jpg")].
Proof.
  apply (error_status_is_fatal
           (fixed_env true cat_realpath (Answer (mkResponse 404 "Not Found")) unread)
           (mkArgs true Act_unlock "cat.jpg") (mkResponse 404 "Not Found")).
  - reflexivity.
  - reflexivity.
  - cbn. lia.
Defined.

(** ** Reading an answer *)

Lemma filter_none {A : Type} (f : A -> bool) (l : list A) :
  (forall x, In x l -> f x = false) -> filter f l = [].
Proof.
  induction l as [| a l IH]; intros H; cbn.
  - reflexivity.
  - rewrite (H a (or_introl eq_refl)). apply IH. intros x Hx. apply H. now right.
Qed.

Lemma tag_eqb_false (x : ET.Element) (tag : string) :
  ET.tag_of x <> tag -> String.eqb (ET.tag_of x) tag = false.
Proof.
  intros H. now apply String.eqb_neq.
Qed.

Lemma findtext_first (root : ET.Element) (tag : string) (e : ET.Element) :
  ET.first_below root tag e -> ET.findtext root tag = Some (ET.value_of e).
Proof.
  intros (before & after & Hsplit & Hbefore & He).
  unfold ET.findtext, ET.select_descendants.
  rewrite Hsplit, filter_app.
  rewrite filter_none by (intros x Hx; apply tag_eqb_false; now apply Hbefore).
  cbn. rewrite He, String.eqb_refl. reflexivity.
Qed.

Lemma findtext_absent (root : ET.Element) (tag : string) :
  (forall x, In x (ET.iter_all (ET.children_of root)) -> ET.tag_of x <> tag) ->
  ET.findtext root tag = None.
Proof.
  intros H. unfold ET.findtext, ET.select_descendants.
  rewrite filter_none by (intros x Hx; apply tag_eqb_false; now apply H).
  reflexivity.
Qed.

(** ** C2: which statuses are fatal

    Claim C2 holds the check to the range the script's own comment names
    (between 200 and 400): inside it the run goes on, outside it the run is
    fatal.  The check is the truth value of the response, which is false for
    400 to 599 only.  A LOCK answered with 102 (Processing) or with 600 is
    outside 200-399 and the run still ends with status 0; a PROPFIND answered
    with 600 still prints the link. *)
Theorem status_600_is_not_fatal :
  ok (mkResponse 102 "") = true /\
  ok (mkResponse 600 "") = true /\
  run (fixed_env true cat_realpath (Answer (mkResponse 102 "")) unread)
    (mkArgs false Act_lock "cat.jpg")
  = (Next tt, mkConsole [] [] [lock_request "LOCK" (fileurl_of "photos/cat.jpg")]) /\
  run (fixed_env true cat_realpath (Answer (mkResponse 600 "")) unread)
    (mkArgs false Act_lock "cat.jpg")
  = (Next tt, mkConsole [] [] [lock_request "LOCK" (fileurl_of "photos/cat.jpg")]) /\
  exit_code (fixed_env true cat_realpath (Answer (mkResponse 600 "")) unread)
    (mkArgs false Act_lock "cat.jpg") = 0%Z /\
  printed (fixed_env true cat_realpath (Answer (mkResponse 600 cat_body)) (reading cat_body multistatus_cat))
    (mkArgs false Act_i "cat.jpg") = ["http://localhost:8080/f/42"].
Proof.
  repeat split; vm_compute; reflexivity.
Qed.

(** ** C3: a share answer with a field missing

    Claim C3 asks that an accepted share answer lacking its url, file_source
    or token is fatal.  [sharePath] never looks whether [findtext] found
    anything (as [getFileId] does for the file id): with the token missing
    the run ends with status 0 and prints a link with None in the token's
    place.  The same gap in a PROPFIND answer is fatal. *)
Theorem share_without_token_is_printed :
  ET.findtext share_without_token "token" = None /\
  run (fixed_env true cat_realpath (Answer (mkResponse 200 share_body_without_token)) (reading share_body_without_token share_without_token))
    (mkArgs false Act_quick_album "cat.jpg")
  = (Next tt,
     mkConsole
       ["<a href=" ++ Py.dquote
          ++ "http://localhost:8080/apps/files_sharing/publicpreview/None?file=/&fileId=99&x=4096&y=4096&a=true"
          ++ Py.dquote ++ "><img src=" ++ Py.dquote
          ++ "http://localhost:8080/apps/files_sharing/publicpreview/None?file=/&fileId=99&x=300&y=300&a=true"
          ++ Py.dquote ++ "></a>"]
       []
       [share_request _auth "/photos/cat.jpg"]) /\
  exit_code
    (fixed_env true cat_realpath (Answer (mkResponse 200 share_body_without_token)) (reading share_body_without_token share_without_token))
    (mkArgs false Act_quick_album "cat.jpg") = 0%Z /\
  exit_code
    (fixed_env true cat_realpath (Answer (mkResponse 207 empty_body))
       (reading empty_body multistatus_empty))
    (mkArgs false Act_internal_link "cat.jpg") = 1%Z.
Proof.
  repeat split; vm_compute; reflexivity.
Qed.

(** ** C4: the quick-album line

    C4: for the quick-album action, when the share answer is accepted and
    holds a token and a file_source, standard output is one line: an anchor
    whose href is the large-image URL (the publicpreview endpoint with the
    token, fileId = file_source, x=4096, y=4096, a=true) around an img whose
    src is the preview URL (the same with x=300, y=300); the run ends with
    status 0. *)
Theorem quick_album_output (env : Env) (args : Args) (r : Response) (root : ET.Element)
    (token file_source : ET.Element) :
  args_action args = Act_q \/ args_action args = Act_quick_album ->
  os_path_exists env (args_path args) = true ->
  server env (share_request _auth ("/" ++ target env args)) = Answer r ->
  ok r = true ->
  fromstring env (text r) = Some root ->
  ET.first_below root "token" token ->
  ET.first_below root "file_source" file_source ->
  let endpoint :=
    "http://localhost:8080/apps/files_sharing/publicpreview/" ++ ET.value_of token
      ++ "?file=/&fileId=" ++ ET.value_of file_source in
  printed env args =
    ["<a href=" ++ Py.dquote ++ (endpoint ++ "&x=4096&y=4096&a=true") ++ Py.dquote
       ++ "><img src=" ++ Py.dquote ++ (endpoint ++ "&x=300&y=300&a=true") ++ Py.dquote
       ++ "></a>"] /\
  exit_code env args = 0%Z.
Proof.
  intros Ha Hex Hsrv Hok Hxml Htok Hsrc endpoint.
  apply findtext_first in Htok, Hsrc.
  unfold printed, exit_code, run.
  rewrite (main_existing env args fresh Hex).
  rewrite (dispatch_quick_album env args _ _ _ Ha).
  proc_run.
  rewrite (bind_next _ _ _ _ _ (sharePath_parsed env args _ _ _ r root Hsrv Hok Hxml)).
  proc_run. streams.
  rewrite Htok, Hsrc.
  split; [| reflexivity].
  f_equal. subst endpoint. unfold album_link, large_image_url, preview_image_url.
  cbn [Py.join String.concat Py.fmt largeImageUrl previewImageUrl].
  rewrite !string_app_assoc. reflexivity.
Qed.

Lemma quick_album_output_tok1 :
  printed (fixed_env true cat_realpath (Answer (mkResponse 200 share_body)) (reading share_body share_complete))
    (mkArgs false Act_q "cat.jpg")
  = ["<a href=" ++ Py.dquote
       ++ "http://localhost:8080/apps/files_sharing/publicpreview/tok1?file=/&fileId=99&x=4096&y=4096&a=true"
       ++ Py.dquote ++ "><img src=" ++ Py.dquote
       ++ "http://localhost:8080/apps/files_sharing/publicpreview/tok1?file=/&fileId=99&x=300&y=300&a=true"
       ++ Py.dquote ++ "></a>"] /\
  exit_code (fixed_env true cat_realpath (Answer (mkResponse 200 share_body)) (reading share_body share_complete))
    (mkArgs false Act_q "cat.jpg") = 0%Z.
Proof.
  apply (quick_album_output
           (fixed_env true cat_realpath (Answer (mkResponse 200 share_body)) (reading share_body share_complete))
           (mkArgs false Act_q "cat.jpg") (mkResponse 200 share_body) share_complete
           (ET.Node "token" (Some "tok1") []) (ET.Node "file_source" (Some "99") []));
    try solve [reflexivity | left; reflexivity].
  - exists (firstn 5 (ET.iter_all (ET.children_of share_complete))), [].
    split; [reflexivity |]. split; [| reflexivity].
    intros x [<- | [<- | [<- | [<- | [<- | []]]]]]; discriminate.
  - exists (firstn 4 (ET.iter_all (ET.children_of share_complete))),
           (skipn 5 (ET.iter_all (ET.children_of share_complete))).
    split; [reflexivity |]. split; [| reflexivity].
    intros x [<- | [<- | [<- | [<- | []]]]]; discriminate.
Defined.

(** ** C5: the internal link and the html-link line

    C5: for every server base URL S and file identifier F the internal link
    is S followed by /f/ and F (http://localhost:8080/f/123 for id 123), and
    the html-link action, with the identifier F fetched from an accepted
    answer, prints exactly one line: an anchor with that link for the
    configured server as href and the relative path as its text; the run ends
    with status 0. *)
Theorem html_link_output (env : Env) (args : Args) (r : Response) (root : ET.Element)
    (id : ET.Element) :
  args_action args = Act_h \/ args_action args = Act_html_link ->
  os_path_exists env (args_path args) = true ->
  server env (propfind_request _auth (fileurl_of (target env args))) = Answer r ->
  ok r = true ->
  fromstring env (text r) = Some root ->
  ET.first_below root "{http://owncloud.org/ns}fileid" id ->
  (forall S F : string, renderInternalUrl S F = S ++ "/f/" ++ F) /\
  renderInternalUrl "http://localhost:8080" "123" = "http://localhost:8080/f/123" /\
  printed env args =
    ["<a href=" ++ Py.dquote ++ ("http://localhost:8080" ++ "/f/" ++ ET.value_of id)
       ++ Py.dquote ++ ">" ++ target env args ++ "</a>"] /\
  exit_code env args = 0%Z.
Proof.
  intros Ha Hex Hsrv Hok Hxml Hfind.
  apply findtext_first in Hfind.
  split; [reflexivity |]. split; [reflexivity |].
  unfold printed, exit_code, run.
  rewrite (main_existing env args fresh Hex).
  rewrite (dispatch_html_link env args _ _ _ Ha).
  rewrite (bind_next _ _ _ _ _ (getFileId_found env args _ _ _ r root _ Hsrv Hok Hxml Hfind)).
  proc_run. streams.
  split; reflexivity.
Qed.

(** The fileid element of the one-file answer, with what stands before it. *)
Lemma first_below_cat :
  ET.first_below multistatus_cat fileid_tag (ET.Node fileid_tag (Some "42") []).
Proof.
  exists (firstn 4 (ET.iter_all (ET.children_of multistatus_cat))),
         (skipn 5 (ET.iter_all (ET.children_of multistatus_cat))).
  split; [reflexivity |]. split; [| reflexivity].
  intros x [<- | [<- | [<- | [<- | []]]]]; discriminate.
Defined.

Lemma html_link_output_cat :
  printed (fixed_env true cat_realpath (Answer (mkResponse 207 cat_body)) (reading cat_body multistatus_cat))
    (mkArgs false Act_html_link "cat.jpg")
  = ["<a href=" ++ Py.dquote ++ "http://localhost:8080/f/42" ++ Py.dquote
       ++ ">photos/cat.jpg</a>"] /\
  exit_code (fixed_env true cat_realpath (Answer (mkResponse 207 cat_body)) (reading cat_body multistatus_cat))
    (mkArgs false Act_html_link "cat.jpg") = 0%Z.
Proof.
  exact (proj2 (proj2 (html_link_output
           (fixed_env true cat_realpath (Answer (mkResponse 207 cat_body)) (reading cat_body multistatus_cat))
           (mkArgs false Act_html_link "cat.jpg") (mkResponse 207 cat_body) multistatus_cat
           (ET.Node fileid_tag (Some "42") [])
           (or_intror eq_refl) eq_refl eq_refl eq_refl eq_refl first_below_cat))).
Defined.

(** X4: the internal-link action, with the identifier fetched from an
    accepted answer, prints the bare link for the configured server and ends
    with status 0. *)
Theorem internal_link_output (env : Env) (args : Args) (r : Response) (root : ET.Element)
    (id : ET.Element) :
  args_action args = Act_i \/ args_action args = Act_internal_link ->
  os_path_exists env (args_path args) = true ->
  server env (propfind_request _auth (fileurl_of (target env args))) = Answer r ->
  ok r = true ->
  fromstring env (text r) = Some root ->
  ET.first_below root "{http://owncloud.org/ns}fileid" id ->
  printed env args = ["http://localhost:8080/f/" ++ ET.value_of id] /\
  exit_code env args = 0%Z.
Proof.
  intros Ha Hex Hsrv Hok Hxml Hfind.
  apply findtext_first in Hfind.
  unfold printed, exit_code, run.
  rewrite (main_existing env args fresh Hex).
  rewrite (dispatch_internal_link env args _ _ _ Ha).
  rewrite (bind_next _ _ _ _ _ (getFileId_found env args _ _ _ r root _ Hsrv Hok Hxml Hfind)).
  proc_run. streams.
  split; reflexivity.
Qed.

Lemma internal_link_output_cat :
  printed (fixed_env true cat_realpath (Answer (mkResponse 207 cat_body)) (reading cat_body multistatus_cat))
    (mkArgs true Act_i "cat.jpg")
  = ["http://localhost:8080/f/42"] /\
  exit_code (fixed_env true cat_realpath (Answer (mkResponse 207 cat_body)) (reading cat_body multistatus_cat))
    (mkArgs true Act_i "cat.jpg") = 0%Z.
Proof.
  exact (internal_link_output
           (fixed_env true cat_realpath (Answer (mkResponse 207 cat_body)) (reading cat_body multistatus_cat))
           (mkArgs true Act_i "cat.jpg") (mkResponse 207 cat_body) multistatus_cat
           (ET.Node fileid_tag (Some "42") [])
           (or_introl eq_refl) eq_refl eq_refl eq_refl eq_refl first_below_cat).
Defined.

(** ** C6: which identifier the fetcher returns *)

(** C6 as stated fails in three places.  A PROPFIND on a folder is answered
    with one fileid per entry: the document holds the value 456, the fetcher
    returns the first one, 123.  A document that is only the fileid element
    holds the value, and the fetcher, which looks below the root, stops with
    status 1.  And an answer with status 404 is turned down whatever its body
    holds. *)
Lemma fileid_held_but_not_returned :
  ET.holds multistatus_folder fileid_tag "456" = true /\
  fst (getFileId
         (fixed_env true folder_realpath (Answer (mkResponse 207 folder_body)) (reading folder_body multistatus_folder))
         (mkArgs false Act_i "photos") _auth (fileurl_of "photos") fresh)
  = Next "123" /\
  ET.holds lone_fileid fileid_tag "123" = true /\
  fst (getFileId
         (fixed_env true cat_realpath (Answer (mkResponse 207 lone_fileid_body)) (reading lone_fileid_body lone_fileid))
         (mkArgs false Act_i "cat.jpg") _auth (fileurl_of "photos/cat.jpg") fresh)
  = Halt (SysExit 1) /\
  ET.holds multistatus_cat fileid_tag "42" = true /\
  fst (getFileId
         (fixed_env true cat_realpath (Answer (mkResponse 404 cat_body)) (reading cat_body multistatus_cat))
         (mkArgs false Act_i "cat.jpg") _auth (fileurl_of "photos/cat.jpg") fresh)
  = Halt (SysExit 1).
Proof.
  repeat split; vm_compute; reflexivity.
Qed.

(** C6, amended: for every accepted response whose body is well-formed, the
    fetcher returns the text of the first fileid element (namespace
    http://owncloud.org/ns) below the root in document order, the empty
    string if that element has no text; and when no element below the root is
    a fileid element it writes the status and the body to the error stream,
    leaves standard output alone and stops with exit status 1. *)
Theorem getFileId_first_below_root (env : Env) (args : Args) (auth : string * string)
    (url : string) (c : Console) (r : Response) (root : ET.Element) :
  server env (propfind_request auth url) = Answer r ->
  ok r = true ->
  fromstring env (text r) = Some root ->
  (forall e,
      ET.first_below root "{http://owncloud.org/ns}fileid" e ->
      fst (getFileId env args auth url c) = Next (ET.value_of e)) /\
  ((forall x, In x (ET.iter_all (ET.children_of root)) ->
              ET.tag_of x <> "{http://owncloud.org/ns}fileid") ->
   fst (getFileId env args auth url c) = Halt (SysExit 1) /\
   exit_status (fst (getFileId env args auth url c)) = 1%Z /\
   stdout (snd (getFileId env args auth url c)) = stdout c /\
   exists lines,
     stderr (snd (getFileId env args auth url c)) =
     (stderr c ++ lines
        ++ [("⛔ HTTP response code " ++ Py.str_of_int (status_code r)
              ++ ". Response text: " ++ text r)%string])%list).
Proof.
  intros Hsrv Hok Hxml. split.
  - intros e He.
    pose proof (findtext_first root fileid_tag e He) as Hfind.
    now rewrite (getFileId_found env args auth url c r root _ Hsrv Hok Hxml Hfind).
  - intros Hnone.
    pose proof (findtext_absent root fileid_tag Hnone) as Hfind.
    rewrite (getFileId_missing env args auth url c r root Hsrv Hok Hxml Hfind).
    cbn [fst snd exit_status emit stdout stderr].
    rewrite app_nil_r. repeat split.
    exists (dbg args ["🏃 fetching internal file ID..."] ++ dbg args [status_report "📝" r]
              ++ dbg args ["🗃️ fileId is None"])%list.
    rewrite <- !app_assoc. reflexivity.
Qed.

Lemma getFileId_first_below_root_cat :
  fst (getFileId
         (fixed_env true cat_realpath (Answer (mkResponse 207 cat_body)) (reading cat_body multistatus_cat))
         (mkArgs false Act_i "cat.jpg") _auth (fileurl_of "photos/cat.jpg") fresh)
  = Next "42".
Proof.
  exact (proj1 (getFileId_first_below_root
                  (fixed_env true cat_realpath (Answer (mkResponse 207 cat_body))
                     (reading cat_body multistatus_cat))
                  (mkArgs false Act_i "cat.jpg") _auth (fileurl_of "photos/cat.jpg") fresh
                  (mkResponse 207 cat_body) multistatus_cat eq_refl eq_refl eq_refl)
           (ET.Node fileid_tag (Some "42") []) first_below_cat).
Defined.

(** ** C7: a lock or unlock the server turns down

    Claim C7 asks that every lock or unlock answered with a status outside
    the accepted range is fatal with a diagnostic about the lock app and the
    lock state.  The check of line 139 is the same truth value as in C2,
    false for 400 to 599 only: a LOCK answered with 600 and an UNLOCK
    answered with 102 end with status 0, write nothing to the error stream
    and, under --debug, report success.  A LOCK answered with 423 is fatal as
    claimed. *)
Theorem lock_answered_600_reports_nothing :
  run (fixed_env true cat_realpath (Answer (mkResponse 600 "")) unread)
    (mkArgs false Act_l "cat.jpg")
  = (Next tt, mkConsole [] [] [lock_request "LOCK" (fileurl_of "photos/cat.jpg")]) /\
  diagnostics (fixed_env true cat_realpath (Answer (mkResponse 600 "")) unread)
    (mkArgs false Act_l "cat.jpg") = [] /\
  exit_code (fixed_env true cat_realpath (Answer (mkResponse 102 "")) unread)
    (mkArgs false Act_unlock "cat.jpg") = 0%Z /\
  diagnostics (fixed_env true cat_realpath (Answer (mkResponse 102 "")) unread)
    (mkArgs false Act_unlock "cat.jpg") = [] /\
  last (diagnostics (fixed_env true cat_realpath (Answer (mkResponse 600 "")) unread)
          (mkArgs true Act_lock "cat.jpg")) EmptyString = "🔒 success!" /\
  exit_code (fixed_env true cat_realpath (Answer (mkResponse 423 "Locked")) unread)
    (mkArgs false Act_lock "cat.jpg") = 1%Z.
Proof.
  repeat split; vm_compute; reflexivity.
Qed.

(** X22: when the lock or unlock request is answered with a status the check
    turns down (400 to 599), the run ends with exit status 1, nothing is
    written to standard output, and the error stream ends with three lines: one
    that asks whether the Temporary files lock app is installed, whether the
    path is already locked by someone else, and whether the path is actually
    locked, then the request, then the status and body of the answer. *)
Theorem lock_refused_is_fatal (env : Env) (args : Args) (method : string) (r : Response) :
  ((args_action args = Act_l \/ args_action args = Act_lock) /\ method = "LOCK") \/
  ((args_action args = Act_u \/ args_action args = Act_unlock) /\ method = "UNLOCK") ->
  os_path_exists env (args_path args) = true ->
  server env (lock_request method (fileurl_of (target env args))) = Answer r ->
  ok r = false ->
  exit_code env args = 1%Z /\
  printed env args = [] /\
  exists before line,
    diagnostics env args =
    (before ++ [line;
                ("📄 HTTP request was " ++ method ++ " " ++ fileurl_of (target env args))%string;
                ("📨 HTTP response code " ++ Py.str_of_int (status_code r)
                   ++ ". Response text: " ++ text r)%string])%list /\
    Py.contains "Is the Temporary files lock app installed?" line = true /\
    Py.contains "is it already locked by someone/something else?" line = true /\
    Py.contains "is the path actually locked?" line = true.
Proof.
  intros Ha Hex Hsrv Hok.
  unfold exit_code, printed, diagnostics, run.
  rewrite (main_existing env args fresh Hex).
  destruct Ha as [[Ha ->] | [Ha ->]].
  - rewrite (dispatch_lock env args _ _ _ Ha). proc_run.
    rewrite (bind_halt _ _ _ _ _
               (lockOrUnlock_rejected env args _ _ _auth _ _ r lock_pair_lock Hsrv Hok)).
    streams. repeat split.
    eexists _, (lock_failed "lock"). split.
    + rewrite !app_assoc. reflexivity.
    + repeat split; vm_compute; reflexivity.
  - rewrite (dispatch_unlock env args _ _ _ Ha). proc_run.
    rewrite (bind_halt _ _ _ _ _
               (lockOrUnlock_rejected env args _ _ _auth _ _ r lock_pair_unlock Hsrv Hok)).
    streams. repeat split.
    eexists _, (lock_failed "unlock"). split.
    + rewrite !app_assoc. reflexivity.
    + repeat split; vm_compute; reflexivity.
Qed.

Lemma lock_refused_is_fatal_423 :
  exit_code (fixed_env true cat_realpath (Answer (mkResponse 423 "Locked")) unread)
    (mkArgs false Act_lock "cat.jpg") = 1%Z /\
  printed (fixed_env true cat_realpath (Answer (mkResponse 423 "Locked")) unread)
    (mkArgs false Act_lock "cat.jpg") = [].
Proof.
  pose proof (lock_refused_is_fatal
                (fixed_env true cat_realpath (Answer (mkResponse 423 "Locked")) unread)
                (mkArgs false Act_lock "cat.jpg") "LOCK" (mkResponse 423 "Locked")
                (or_introl (conj (or_intror eq_refl) eq_refl)) eq_refl eq_refl eq_refl)
    as [Hcode [Hout _]].
  split; assumption.
Defined.

(** ** C8: a path that does not exist

    C8: when the path given does not exist, the run writes the message that
    the path does not exist to the error stream (after the one debug line
    under --debug), exits with status 1, and has sent no request; so a
    request is only ever sent for a path that exists. *)
Theorem missing_path_is_fatal (env : Env) (args : Args) :
  os_path_exists env (args_path args) = false ->
  exit_code env args = 1%Z /\
  diagnostics env args =
    (dbg args [("👟 action is " ++ action_name (args_action args))%string]
       ++ ["⛔ Error: path does not exist"])%list /\
  remote_calls env args = [].
Proof.
  intros Hex. unfold exit_code, diagnostics, remote_calls, run.
  rewrite (main_missing env args fresh Hex).
  repeat split.
Qed.

Lemma missing_path_is_fatal_quick_album :
  exit_code (fixed_env false cat_realpath (Answer (mkResponse 200 share_body)) (reading share_body share_complete))
    (mkArgs false Act_quick_album "cat.jpg") = 1%Z /\
  diagnostics (fixed_env false cat_realpath (Answer (mkResponse 200 share_body)) (reading share_body share_complete))
    (mkArgs false Act_quick_album "cat.jpg") = ["⛔ Error: path does not exist"] /\
  remote_calls (fixed_env false cat_realpath (Answer (mkResponse 200 share_body)) (reading share_body share_complete))
    (mkArgs false Act_quick_album "cat.jpg") = [].
Proof.
  apply (missing_path_is_fatal
           (fixed_env false cat_realpath (Answer (mkResponse 200 share_body)) (reading share_body share_complete))
           (mkArgs false Act_quick_album "cat.jpg")).
  reflexivity.
Defined.

(** X5: the same, read the other way round.  A run that has sent a request
    was given a path that exists. *)
Theorem remote_call_needs_existing_path (env : Env) (args : Args) :
  remote_calls env args <> [] -> os_path_exists env (args_path args) = true.
Proof.
  intros Hcalls.
  destruct (os_path_exists env (args_path args)) eqn:Hex; [reflexivity |].
  exfalso. apply Hcalls.
  unfold remote_calls, run. now rewrite (main_missing env args fresh Hex).
Qed.

Lemma remote_call_needs_existing_path_cat :
  os_path_exists (fixed_env true cat_realpath (Answer (mkResponse 207 cat_body)) (reading cat_body multistatus_cat))
    (args_path (mkArgs false Act_i "cat.jpg")) = true.
Proof.
  apply (remote_call_needs_existing_path
           (fixed_env true cat_realpath (Answer (mkResponse 207 cat_body)) (reading cat_body multistatus_cat))
           (mkArgs false Act_i "cat.jpg")).
  vm_compute. discriminate.
Defined.

(** ** What every run past the path check has in common

    Whatever the server answers, each operation sends exactly its one
    request, never trips over an unassigned variable, and writes nothing that
    reads like the path validation error. *)

Lemma no_path_error_dbg (args : Args) (l : list string) :
  no_path_error l -> no_path_error (dbg args l).
Proof.
  unfold dbg. destruct (args_debug args); [trivial | constructor].
Qed.

Lemma no_path_error_app (l1 l2 : list string) :
  no_path_error l1 -> no_path_error l2 -> no_path_error (l1 ++ l2).
Proof.
  intros H1 H2. apply Forall_app. now split.
Qed.

(** A line that starts with other text than the validation error. *)
Ltac other_line :=
  let H := fresh in
  intros H; unfold path_error, status_report, lock_failed in H; cbn in H; discriminate H.

Ltac other_lines :=
  repeat first
    [ apply no_path_error_app
    | apply no_path_error_dbg
    | apply Forall_nil
    | assumption
    | apply Forall_cons; [other_line |] ].

Section Frames.

Variable env : Env.
Variable args : Args.

Lemma getFileId_frame auth url c :
  exists res lines,
    getFileId env args auth url c = (res, emit c [] lines [propfind_request auth url]) /\
    settled res /\ no_path_error lines.
Proof.
  destruct (server env (propfind_request auth url)) as [e | r] eqn:Hsrv.
  { rewrite (getFileId_transport env args auth url c e Hsrv).
    eexists _, _. split; [reflexivity |]. split; [discriminate | other_lines]. }
  destruct (ok r) eqn:Hok.
  2: { rewrite (getFileId_rejected env args auth url c r Hsrv Hok).
       eexists _, _. split; [reflexivity |]. split; [discriminate | other_lines]. }
  destruct (fromstring env (text r)) as [root |] eqn:Hxml.
  2: { rewrite (getFileId_malformed env args auth url c r Hsrv Hok Hxml).
       eexists _, _. split; [reflexivity |]. split; [discriminate | other_lines]. }
  destruct (ET.findtext root fileid_tag) as [v |] eqn:Hfind.
  - rewrite (getFileId_found env args auth url c r root v Hsrv Hok Hxml Hfind).
    eexists _, _. split; [reflexivity |]. split; [discriminate | other_lines].
  - rewrite (getFileId_missing env args auth url c r root Hsrv Hok Hxml Hfind).
    eexists _, _. split; [reflexivity |]. split; [discriminate | other_lines].
Qed.

Lemma lockOrUnlock_frame action method auth url c :
  lock_pair action method ->
  exists res lines,
    lockOrUnlock env args action auth url c = (res, emit c [] lines [lock_request method url]) /\
    settled res /\ no_path_error lines.
Proof.
  intros Hp.
  destruct (server env (lock_request method url)) as [e | r] eqn:Hsrv.
  { rewrite (lockOrUnlock_transport env args action method auth url c e Hp Hsrv).
    eexists _, _. split; [reflexivity |]. split; [discriminate | other_lines]. }
  destruct (ok r) eqn:Hok.
  - rewrite (lockOrUnlock_accepted env args action method auth url c r Hp Hsrv Hok).
    eexists _, _. split; [reflexivity |]. split; [discriminate | other_lines].
  - rewrite (lockOrUnlock_rejected env args action method auth url c r Hp Hsrv Hok).
    eexists _, _. split; [reflexivity |]. split; [discriminate |].
    destruct Hp as [[-> ->] | [-> ->]]; other_lines.
Qed.

Lemma sharePath_frame auth rooted c :
  exists res lines,
    sharePath env args auth rooted c = (res, emit c [] lines [share_request auth rooted]) /\
    settled res /\ no_path_error lines.
Proof.
  destruct (server env (share_request auth rooted)) as [e | r] eqn:Hsrv.
  { rewrite (sharePath_transport env args auth rooted c e Hsrv).
    eexists _, _. split; [reflexivity |]. split; [discriminate | other_lines]. }
  destruct (ok r) eqn:Hok.
  2: { rewrite (sharePath_rejected env args auth rooted c r Hsrv Hok).
       eexists _, _. split; [reflexivity |]. split; [discriminate | other_lines]. }
  destruct (fromstring env (text r)) as [root |] eqn:Hxml.
  - rewrite (sharePath_parsed env args auth rooted c r root Hsrv Hok Hxml).
    eexists _, _. split; [reflexivity |]. split; [discriminate | other_lines].
  - rewrite (sharePath_malformed env args auth rooted c r Hsrv Hok Hxml).
    eexists _, _. split; [reflexivity |]. split; [discriminate | other_lines].
Qed.

End Frames.

Lemma settled_halt {A B : Type} (s : Stop) :
  settled (@Halt A s) -> settled (@Halt B s).
Proof.
  unfold settled. intros H E. apply H. now injection E as ->.
Qed.

Ltac close_frame :=
  streams; eexists _, _, _;
  split; [reflexivity |];
  split;
    [ first [assumption | eapply settled_halt; eassumption | unfold settled; discriminate]
    | other_lines ].

Lemma run_existing_frame (env : Env) (args : Args) :
  os_path_exists env (args_path args) = true ->
  exists res out lines,
    run env args =
    (res, mkConsole out lines [request_of (args_action args) (target env args)]) /\
    settled res /\ no_path_error lines.
Proof.
  intros Hex. unfold run.
  rewrite (main_existing env args fresh Hex).
  destruct (args_action args) eqn:Ha; cbn [request_of]; enter_dispatch.
  1, 2, 3, 4:
    match goal with
    | |- context [bind (getFileId _ _ ?au ?u) _ ?c] =>
        destruct (getFileId_frame env args au u c) as (res & lines & Heq & Hres & Hlines)
    end;
    destruct res as [v | s];
    [ rewrite (bind_next _ _ _ _ _ Heq); proc_run
    | rewrite (bind_halt _ _ _ _ _ Heq) ];
    close_frame.
  1, 2:
    proc_run;
    match goal with
    | |- context [bind (lockOrUnlock _ _ ?a ?au ?u) _ ?c] =>
        destruct (lockOrUnlock_frame env args a "LOCK" au u c lock_pair_lock)
          as (res & lines & Heq & Hres & Hlines)
    end;
    destruct res as [v | s];
    [ rewrite (bind_next _ _ _ _ _ Heq); proc_run
    | rewrite (bind_halt _ _ _ _ _ Heq) ];
    close_frame.
  1, 2:
    proc_run;
    match goal with
    | |- context [bind (sharePath _ _ ?au ?p) _ ?c] =>
        destruct (sharePath_frame env args au p c) as (res & lines & Heq & Hres & Hlines)
    end;
    destruct res as [v | s];
    [ rewrite (bind_next _ _ _ _ _ Heq); proc_run
    | rewrite (bind_halt _ _ _ _ _ Heq) ];
    close_frame.
  1, 2:
    proc_run;
    match goal with
    | |- context [bind (lockOrUnlock _ _ ?a ?au ?u) _ ?c] =>
        destruct (lockOrUnlock_frame env args a "UNLOCK" au u c lock_pair_unlock)
          as (res & lines & Heq & Hres & Hlines)
    end;
    destruct res as [v | s];
    [ rewrite (bind_next _ _ _ _ _ Heq); proc_run
    | rewrite (bind_halt _ _ _ _ _ Heq) ];
    close_frame.
Qed.

(** ** C9: the method of a lock or unlock request *)

(** C9 as stated ends with a request that uses an unassigned method.  No
    such request exists: with any other action word the function prints the
    internal error, does not exit, and then fails on the first read of the
    variable, the debug line in front of the request; nothing has been sent
    when the run ends. *)
Lemma lockOrUnlock_other_action_sends_nothing :
  lockOrUnlock (fixed_env true cat_realpath (Answer (mkResponse 200 "")) unread)
    (mkArgs false Act_lock "cat.jpg") "relock" _auth (fileurl_of "photos/cat.jpg") fresh
  = (Halt (Uncaught "UnboundLocalError"),
     mkConsole [] ["⛔ internal error. action=relock"] []).
Proof.
  vm_compute. reflexivity.
Qed.

(** C9, amended: called with lock or unlock, the function never enters the
    internal-error branch, the method is assigned (LOCK for lock, UNLOCK for
    unlock) and is the method of the one request sent; the dispatcher passes
    no other word, so no run ever ends on the unassigned variable.  With any
    other word the function prints the internal error and does not exit; the
    method is then unassigned, the next statement that reads it raises
    UnboundLocalError, and no request is sent. *)
Theorem lockOrUnlock_method_assignment (env : Env) (args : Args) (action : string)
    (auth : string * string) (url : string) (c : Console) :
  (action = "lock" ->
   assign_method action c = (Next (Some "LOCK"), c) /\
   sent (snd (lockOrUnlock env args action auth url c))
     = (sent c ++ [mkRequest "LOCK" url _auth [("X-User-Lock", "1")] NoData])%list /\
   settled (fst (lockOrUnlock env args action auth url c))) /\
  (action = "unlock" ->
   assign_method action c = (Next (Some "UNLOCK"), c) /\
   sent (snd (lockOrUnlock env args action auth url c))
     = (sent c ++ [mkRequest "UNLOCK" url _auth [("X-User-Lock", "1")] NoData])%list /\
   settled (fst (lockOrUnlock env args action auth url c))) /\
  (action <> "lock" -> action <> "unlock" ->
   fst (assign_method action c) = Next None /\
   fst (lockOrUnlock env args action auth url c) = Halt (Uncaught "UnboundLocalError") /\
   stderr (snd (lockOrUnlock env args action auth url c))
     = (stderr c ++ [("⛔ internal error. action=" ++ action)%string])%list /\
   sent (snd (lockOrUnlock env args action auth url c)) = sent c) /\
  settled (fst (run env args)).
Proof.
  repeat apply conj.
  - intros ->.
    destruct (lockOrUnlock_frame env args "lock" "LOCK" auth url c lock_pair_lock)
      as (res & lines & Heq & Hres & _).
    rewrite Heq. cbn [fst snd emit sent]. now repeat split.
  - intros ->.
    destruct (lockOrUnlock_frame env args "unlock" "UNLOCK" auth url c lock_pair_unlock)
      as (res & lines & Heq & Hres & _).
    rewrite Heq. cbn [fst snd emit sent]. now repeat split.
  - intros Hl Hu.
    rewrite (assign_method_other action c Hl Hu).
    rewrite (lockOrUnlock_unassigned env args action auth url c Hl Hu).
    cbn [fst snd emit stderr sent]. rewrite app_nil_r. now repeat split.
  - destruct (os_path_exists env (args_path args)) eqn:Hex.
    + destruct (run_existing_frame env args Hex) as (res & out & lines & Heq & Hres & _).
      now rewrite Heq.
    + unfold run. rewrite (main_missing env args fresh Hex). discriminate.
Qed.

Lemma lockOrUnlock_method_assignment_lock :
  assign_method "lock" fresh = (Next (Some "LOCK"), fresh).
Proof.
  exact (proj1 (proj1 (lockOrUnlock_method_assignment
                  (fixed_env true cat_realpath (Answer (mkResponse 200 "")) unread)
                  (mkArgs false Act_lock "cat.jpg") "lock" _auth
                  (fileurl_of "photos/cat.jpg") fresh) eq_refl)).
Defined.

(** ** C10: no check against the sync folder

    C10: for every path that exists, under the sync folder or not, the run
    writes no validation error; the relative path is the resolved path with
    every occurrence of the sync folder's path removed and the first
    character dropped, and the one request of the run carries it: in its URL
    for the file operations, in its path field (behind a separator) for the
    share. *)
Theorem remote_call_without_root_check (env : Env) (args : Args) :
  os_path_exists env (args_path args) = true ->
  let relative :=
    Py.slice_from_1
      (Py.re_sub "/home/user/Nextcloud" EmptyString (os_path_realpath env (args_path args))) in
  ~ In "⛔ Error: path does not exist" (diagnostics env args) /\
  exists req,
    remote_calls env args = [req] /\
    req = request_of (args_action args) relative /\
    match args_action args with
    | Act_q | Act_quick_album =>
        data req = FormData [("attributes", VStr "[]");
                             ("path", VStr ("/" ++ relative));
                             ("shareType", VInt 3)]
    | _ => url req = "http://localhost:8080/remote.php/dav/files/admin/" ++ relative
    end.
Proof.
  intros Hex relative.
  destruct (run_existing_frame env args Hex) as (res & out & lines & Heq & _ & Hlines).
  unfold diagnostics, remote_calls. rewrite Heq. cbn [snd stderr sent].
  split.
  - intros Hin. unfold no_path_error in Hlines. rewrite Forall_forall in Hlines.
    now apply (Hlines _ Hin).
  - eexists. split; [reflexivity |]. split; [reflexivity |].
    destruct (args_action args); reflexivity.
Qed.

Lemma remote_call_without_root_check_backup :
  under_sync_root backup_realpath = false /\
  remote_calls
    (fixed_env true backup_realpath (Answer (mkResponse 404 "Not Found")) unread)
    (mkArgs false Act_i "a.txt")
  = [propfind_request _auth "http://localhost:8080/remote.php/dav/files/admin/mnt/backup/a.txt"].
Proof.
  split; [reflexivity |].
  destruct (remote_call_without_root_check
              (fixed_env true backup_realpath (Answer (mkResponse 404 "Not Found")) unread)
              (mkArgs false Act_i "a.txt") eq_refl)
    as [_ [req [Hcalls [Hreq _]]]].
  rewrite Hcalls, Hreq. reflexivity.
Defined.

(** ** Results and lines, operation by operation *)

Ltac quiet_lines :=
  let H := fresh in intros H; unfold dbg; rewrite H; reflexivity.

Ltac loud_lines :=
  let E := fresh in
  intros E; repeat (apply app_eq_nil in E; destruct E as [_ E]); discriminate E.

Ltac give_verdict :=
  eexists _, _; split; [reflexivity |]; cbn [verdict];
  first [quiet_lines | split; [reflexivity | first [quiet_lines | loud_lines]]].

Section Verdicts.

Variable env : Env.
Variable args : Args.

Lemma getFileId_verdict auth url c :
  exists res lines,
    getFileId env args auth url c = (res, emit c [] lines [propfind_request auth url]) /\
    verdict args res lines.
Proof.
  destruct (server env (propfind_request auth url)) as [e | r] eqn:Hsrv.
  { rewrite (getFileId_transport env args auth url c e Hsrv). give_verdict. }
  destruct (ok r) eqn:Hok.
  2: { rewrite (getFileId_rejected env args auth url c r Hsrv Hok). give_verdict. }
  destruct (fromstring env (text r)) as [root |] eqn:Hxml.
  2: { rewrite (getFileId_malformed env args auth url c r Hsrv Hok Hxml). give_verdict. }
  destruct (ET.findtext root fileid_tag) as [v |] eqn:Hfind.
  - rewrite (getFileId_found env args auth url c r root v Hsrv Hok Hxml Hfind). give_verdict.
  - rewrite (getFileId_missing env args auth url c r root Hsrv Hok Hxml Hfind). give_verdict.
Qed.

Lemma lockOrUnlock_verdict action method auth url c :
  lock_pair action method ->
  exists res lines,
    lockOrUnlock env args action auth url c = (res, emit c [] lines [lock_request method url]) /\
    verdict args res lines /\
    forall e, res <> Halt (Uncaught e).
Proof.
  intros Hp.
  destruct (server env (lock_request method url)) as [e | r] eqn:Hsrv.
  { rewrite (lockOrUnlock_transport env args action method auth url c e Hp Hsrv).
    eexists _, _. split; [reflexivity |]. split; [| discriminate].
    split; [reflexivity | loud_lines]. }
  destruct (ok r) eqn:Hok.
  - rewrite (lockOrUnlock_accepted env args action method auth url c r Hp Hsrv Hok).
    eexists _, _. split; [reflexivity |]. split; [| discriminate].
    cbn [verdict]. quiet_lines.
  - rewrite (lockOrUnlock_rejected env args action method auth url c r Hp Hsrv Hok).
    eexists _, _. split; [reflexivity |]. split; [| discriminate].
    split; [reflexivity | loud_lines].
Qed.

Lemma sharePath_verdict auth rooted c :
  exists res lines,
    sharePath env args auth rooted c = (res, emit c [] lines [share_request auth rooted]) /\
    verdict args res lines.
Proof.
  destruct (server env (share_request auth rooted)) as [e | r] eqn:Hsrv.
  { rewrite (sharePath_transport env args auth rooted c e Hsrv). give_verdict. }
  destruct (ok r) eqn:Hok.
  2: { rewrite (sharePath_rejected env args auth rooted c r Hsrv Hok). give_verdict. }
  destruct (fromstring env (text r)) as [root |] eqn:Hxml.
  - rewrite (sharePath_parsed env args auth rooted c r root Hsrv Hok Hxml). give_verdict.
  - rewrite (sharePath_malformed env args auth rooted c r Hsrv Hok Hxml). give_verdict.
Qed.

End Verdicts.

(** ** Every run past the path check, outcome by outcome *)

Ltac give_outcome :=
  streams; rewrite <- ?app_assoc; unfold emit; cbn [fresh stdout stderr sent app];
  eexists _, _, _; split; [reflexivity |].

Ltac quiet_rest Hv :=
  let Hd := fresh in
  intros Hd; rewrite ?(Hv Hd); unfold dbg; rewrite ?Hd; reflexivity.

Ltac loud_rest Hl :=
  let E := fresh in
  intros E; apply Hl;
  repeat (match type of E with (_ ++ _)%list = [] => apply app_eq_nil in E; destruct E as [_ E] end);
  exact E.

Ltac settle_outcome Hv :=
  cbn [verdict] in Hv |- *;
  split;
    [ first
        [ quiet_rest Hv
        | let Hl := fresh in destruct Hv as [-> Hl]; split; [reflexivity | loud_rest Hl]
        | let Hq := fresh in destruct Hv as [-> Hq]; split; [reflexivity | quiet_rest Hq] ]
    | first
        [ reflexivity
        | split; [reflexivity | first [discriminate | intros _; assumption]] ] ].

Lemma run_existing_outcome (env : Env) (args : Args) :
  os_path_exists env (args_path args) = true ->
  exists res out rest,
    run env args =
    (res, mkConsole out (after_prologue env args rest)
            [request_of (args_action args) (target env args)]) /\
    verdict args res rest /\
    match res with
    | Next _ => length out = (if lock_family (args_action args) then 0 else 1)%nat
    | Halt s => out = [] /\ (lock_family (args_action args) = true -> forall e, s <> Uncaught e)
    end.
Proof.
  intros Hex. unfold run, after_prologue.
  rewrite (main_existing env args fresh Hex).
  destruct (args_action args) eqn:Ha; cbn [request_of lock_family]; enter_dispatch.
  1, 2, 3, 4:
    match goal with
    | |- context [bind (getFileId _ _ ?au ?u) _ ?c] =>
        destruct (getFileId_verdict env args au u c) as (res & lines & Heq & Hv)
    end;
    destruct res as [v | [code | e]];
    [ rewrite (bind_next _ _ _ _ _ Heq); proc_run
    | rewrite (bind_halt _ _ _ _ _ Heq)
    | rewrite (bind_halt _ _ _ _ _ Heq) ];
    give_outcome; settle_outcome Hv.
  1, 2:
    proc_run;
    match goal with
    | |- context [bind (lockOrUnlock _ _ ?a ?au ?u) _ ?c] =>
        destruct (lockOrUnlock_verdict env args a "LOCK" au u c lock_pair_lock)
          as (res & lines & Heq & Hv & Hnever)
    end;
    destruct res as [v | [code | e]];
    [ rewrite (bind_next _ _ _ _ _ Heq); proc_run
    | rewrite (bind_halt _ _ _ _ _ Heq)
    | exfalso; exact (Hnever e eq_refl) ];
    give_outcome; settle_outcome Hv.
  1, 2:
    proc_run;
    match goal with
    | |- context [bind (sharePath _ _ ?au ?p) _ ?c] =>
        destruct (sharePath_verdict env args au p c) as (res & lines & Heq & Hv)
    end;
    destruct res as [v | [code | e]];
    [ rewrite (bind_next _ _ _ _ _ Heq); proc_run
    | rewrite (bind_halt _ _ _ _ _ Heq)
    | rewrite (bind_halt _ _ _ _ _ Heq) ];
    give_outcome; settle_outcome Hv.
  1, 2:
    proc_run;
    match goal with
    | |- context [bind (lockOrUnlock _ _ ?a ?au ?u) _ ?c] =>
        destruct (lockOrUnlock_verdict env args a "UNLOCK" au u c lock_pair_unlock)
          as (res & lines & Heq & Hv & Hnever)
    end;
    destruct res as [v | [code | e]];
    [ rewrite (bind_next _ _ _ _ _ Heq); proc_run
    | rewrite (bind_halt _ _ _ _ _ Heq)
    | exfalso; exact (Hnever e eq_refl) ];
    give_outcome; settle_outcome Hv.
Qed.

Lemma after_prologue_quiet (env : Env) (args : Args) :
  args_debug args = false -> after_prologue env args [] = [].
Proof.
  intros Hd. unfold after_prologue, dbg. now rewrite Hd.
Qed.

Lemma after_prologue_loud (env : Env) (args : Args) (rest : list string) :
  rest <> [] -> after_prologue env args rest <> [].
Proof.
  intros Hrest E. apply Hrest. unfold after_prologue in E.
  repeat (apply app_eq_nil in E; destruct E as [_ E]). exact E.
Qed.

(** X7: without --debug a run that ends with status 0 has written nothing to
    the error stream. *)
Theorem success_is_quiet (env : Env) (args : Args) :
  args_debug args = false ->
  exit_code env args = 0%Z ->
  diagnostics env args = [].
Proof.
  intros Hd Hcode. unfold exit_code, diagnostics in *.
  destruct (os_path_exists env (args_path args)) eqn:Hex.
  - destruct (run_existing_outcome env args Hex) as (res & out & rest & Hrun & Hv & _).
    rewrite Hrun in *. cbn [fst snd stderr] in *.
    destruct res as [[] | [code | e]]; cbn [exit_status verdict] in *.
    + rewrite (Hv Hd). now apply after_prologue_quiet.
    + destruct Hv as [-> _]. discriminate.
    + discriminate.
  - unfold run in Hcode. rewrite (main_missing env args fresh Hex) in Hcode. discriminate.
Qed.

Lemma success_is_quiet_lock :
  diagnostics (fixed_env true cat_realpath (Answer (mkResponse 200 "")) unread)
    (mkArgs false Act_lock "cat.jpg") = [].
Proof.
  apply (success_is_quiet
           (fixed_env true cat_realpath (Answer (mkResponse 200 "")) unread)
           (mkArgs false Act_lock "cat.jpg")); reflexivity.
Defined.

(** X8: for a path that exists, a run that does not end with status 0 has
    written nothing to standard output. *)
Theorem failed_run_prints_nothing (env : Env) (args : Args) :
  os_path_exists env (args_path args) = true ->
  exit_code env args <> 0%Z ->
  printed env args = [].
Proof.
  intros Hex Hcode. unfold exit_code, printed in *.
  destruct (run_existing_outcome env args Hex) as (res & out & rest & Hrun & _ & Hout).
  rewrite Hrun in *. cbn [fst snd stdout] in *.
  destruct res as [v | s]; [now elim Hcode | now destruct Hout].
Qed.

Lemma failed_run_prints_nothing_refused :
  printed (fixed_env true cat_realpath (RequestException "Connection refused") unread)
    (mkArgs true Act_html_link "cat.jpg") = [].
Proof.
  apply (failed_run_prints_nothing
           (fixed_env true cat_realpath (RequestException "Connection refused") unread)
           (mkArgs true Act_html_link "cat.jpg")).
  - reflexivity.
  - vm_compute. discriminate.
Defined.

(** X9: whenever the script stops through sys.exit, the status is 1 and the
    error stream holds at least one line, with or without --debug. *)
Theorem sys_exit_follows_diagnostic (env : Env) (args : Args) (code : Z) :
  fst (run env args) = Halt (SysExit code) ->
  code = 1%Z /\ diagnostics env args <> [].
Proof.
  intros Hstop. unfold diagnostics.
  destruct (os_path_exists env (args_path args)) eqn:Hex.
  - destruct (run_existing_outcome env args Hex) as (res & out & rest & Hrun & Hv & _).
    rewrite Hrun in *. cbn [fst snd stderr] in *. subst res.
    cbn [verdict] in Hv. destruct Hv as [-> Hrest].
    split; [reflexivity | now apply after_prologue_loud].
  - unfold run in *. rewrite (main_missing env args fresh Hex) in *.
    cbn [fst snd emit stderr fresh app] in *.
    injection Hstop as <-. split; [reflexivity |].
    intros E. apply app_eq_nil in E as [_ E]. discriminate E.
Qed.

Lemma sys_exit_follows_diagnostic_404 :
  1%Z = 1%Z /\
  diagnostics (fixed_env true cat_realpath (Answer (mkResponse 404 "Not Found")) unread)
    (mkArgs false Act_i "cat.jpg") <> [].
Proof.
  apply (sys_exit_follows_diagnostic
           (fixed_env true cat_realpath (Answer (mkResponse 404 "Not Found")) unread)
           (mkArgs false Act_i "cat.jpg") 1).
  reflexivity.
Defined.

(** X11: for a path that exists, a run that ends with status 0 has written
    exactly one line to standard output for the link actions and none for
    lock and unlock. *)
Theorem printed_lines_on_success (env : Env) (args : Args) :
  os_path_exists env (args_path args) = true ->
  exit_code env args = 0%Z ->
  length (printed env args) = (if lock_family (args_action args) then 0 else 1)%nat.
Proof.
  intros Hex Hcode. unfold exit_code, printed in *.
  destruct (run_existing_outcome env args Hex) as (res & out & rest & Hrun & Hv & Hout).
  rewrite Hrun in *. cbn [fst snd stdout] in *.
  destruct res as [v | [code | e]]; cbn [exit_status verdict] in *.
  - exact Hout.
  - destruct Hv as [-> _]. discriminate.
  - discriminate.
Qed.

Lemma printed_lines_on_success_unlock :
  length (printed (fixed_env true cat_realpath (Answer (mkResponse 204 "")) unread)
            (mkArgs true Act_u "cat.jpg")) = 0%nat.
Proof.
  apply (printed_lines_on_success
           (fixed_env true cat_realpath (Answer (mkResponse 204 "")) unread)
           (mkArgs true Act_u "cat.jpg")); reflexivity.
Defined.

(** X12: under --debug, for a path that exists, the error stream begins with
    four lines in this order: the action, the absolute path, the relative
    path and the WebDAV URL. *)
Theorem debug_prologue (env : Env) (args : Args) :
  args_debug args = true ->
  os_path_exists env (args_path args) = true ->
  exists rest,
    diagnostics env args =
    ([("👟 action is " ++ action_name (args_action args))%string;
      ("📁 absolute path is " ++ os_path_realpath env (args_path args))%string;
      ("🗂️ relative path is " ++ relativePathOnly (os_path_realpath env (args_path args)))%string;
      ("💻 WebDAV path is " ++ "http://localhost:8080/remote.php/dav/files/admin/"
         ++ relativePathOnly (os_path_realpath env (args_path args)))%string]
       ++ rest)%list.
Proof.
  intros Hd Hex. unfold diagnostics.
  destruct (run_existing_outcome env args Hex) as (res & out & rest & Hrun & _).
  rewrite Hrun. cbn [snd stderr]. exists rest.
  unfold after_prologue, dbg. rewrite Hd. reflexivity.
Qed.

Lemma debug_prologue_cat :
  exists rest,
    diagnostics (fixed_env true cat_realpath (Answer (mkResponse 204 "")) unread)
      (mkArgs true Act_lock "cat.jpg") =
    (["👟 action is lock";
      "📁 absolute path is /home/user/Nextcloud/photos/cat.jpg";
      "🗂️ relative path is photos/cat.jpg";
      "💻 WebDAV path is http://localhost:8080/remote.php/dav/files/admin/photos/cat.jpg"]
       ++ rest)%list.
Proof.
  apply (debug_prologue
           (fixed_env true cat_realpath (Answer (mkResponse 204 "")) unread)
           (mkArgs true Act_lock "cat.jpg")); reflexivity.
Defined.

(** ** Programs that differ only in what they write to the error stream *)

Lemma agree_ret {A : Type} (a : A) : agree (ret a) (ret a).
Proof.
  intros c1 c2 Ho Hs. now repeat split.
Qed.

Lemma agree_bind {A B : Type} (p q : Proc A) (k l : A -> Proc B) :
  agree p q -> (forall a, agree (k a) (l a)) -> agree (bind p k) (bind q l).
Proof.
  intros Hpq Hkl c1 c2 Ho Hs. unfold bind.
  destruct (Hpq c1 c2 Ho Hs) as (Hres & Ho' & Hs').
  destruct (p c1) as [[a | s] c1'], (q c2) as [[b | t] c2']; cbn [fst snd] in *;
    try discriminate.
  - injection Hres as <-. now apply Hkl.
  - injection Hres as <-. now repeat split.
Qed.

Lemma agree_print_stderr (l1 l2 : string) : agree (print_stderr l1) (print_stderr l2).
Proof.
  intros c1 c2 Ho Hs. now repeat split.
Qed.

Lemma agree_print_stdout (l : string) : agree (print_stdout l) (print_stdout l).
Proof.
  intros c1 c2 Ho Hs. repeat split; cbn; [now rewrite Ho | exact Hs].
Qed.

Lemma agree_sys_exit {A : Type} (code : Z) : agree (@sys_exit A code) (sys_exit code).
Proof.
  intros c1 c2 Ho Hs. now repeat split.
Qed.

Lemma agree_raise {A : Type} (e : string) : agree (@raise A e) (raise e).
Proof.
  intros c1 c2 Ho Hs. now repeat split.
Qed.

Lemma agree_debug (a1 a2 : Args) (m1 m2 : string) : agree (debug a1 m1) (debug a2 m2).
Proof.
  intros c1 c2 Ho Hs. unfold debug, when.
  destruct (args_debug a1), (args_debug a2); now repeat split.
Qed.

Lemma agree_requests_request (env : Env) (r : Request) :
  agree (requests_request env r) (requests_request env r).
Proof.
  intros c1 c2 Ho Hs. repeat split; cbn; [exact Ho | now rewrite Hs].
Qed.

Lemma agree_when (b : bool) (p q : Proc unit) : agree p q -> agree (when b p) (when b q).
Proof.
  intros H. destruct b; [exact H | apply agree_ret].
Qed.

Ltac agree_step :=
  first
    [ apply agree_debug
    | apply agree_print_stderr
    | apply agree_print_stdout
    | apply agree_sys_exit
    | apply agree_raise
    | apply agree_ret
    | apply agree_requests_request
    | apply agree_when
    | apply agree_bind; [| intro]
    | match goal with
      | |- agree (match ?x with _ => _ end) _ => destruct x
      | |- agree (if ?x then _ else _) _ => destruct x
      end ].

Section Agreement.

Variable env : Env.
Variables a1 a2 : Args.

Lemma agree_getFileId auth url :
  agree (getFileId env a1 auth url) (getFileId env a2 auth url).
Proof.
  unfold getFileId, cET_fromstring. repeat agree_step.
Qed.

Lemma agree_lockOrUnlock action auth url :
  agree (lockOrUnlock env a1 action auth url) (lockOrUnlock env a2 action auth url).
Proof.
  unfold lockOrUnlock, assign_method, read_local. repeat agree_step.
Qed.

Lemma agree_sharePath auth rooted :
  agree (sharePath env a1 auth rooted) (sharePath env a2 auth rooted).
Proof.
  unfold sharePath, cET_fromstring. repeat agree_step.
Qed.

Lemma agree_dispatch relative url :
  long_name (args_action a1) = long_name (args_action a2) ->
  agree (dispatch env a1 relative url) (dispatch env a2 relative url).
Proof.
  intros Hname. unfold dispatch.
  destruct (args_action a1), (args_action a2); try discriminate Hname;
    cbv beta iota zeta delta
      [action_name Py.in_list existsb String.eqb Ascii.eqb Bool.eqb orb];
    repeat first
      [ apply agree_getFileId | apply agree_lockOrUnlock | apply agree_sharePath
      | agree_step ].
Qed.

Lemma agree_main :
  args_path a1 = args_path a2 ->
  long_name (args_action a1) = long_name (args_action a2) ->
  agree (main env a1) (main env a2).
Proof.
  intros Hpath Hname. unfold main. rewrite <- Hpath.
  cbv zeta.
  repeat first [apply agree_dispatch; exact Hname | agree_step].
Qed.

End Agreement.

Lemma long_name_idempotent (a : Action) : long_name a = long_name (long_name a).
Proof. now destruct a. Qed.


(** X14: the short and the long spelling of an action do the same: the exit
    status, standard output and the requests sent agree, and without --debug
    (where the action is not echoed) the two runs are equal. *)
Theorem short_and_long_names_agree (env : Env) (d : bool) (a : Action) (p : string) :
  exit_code env (mkArgs d a p) = exit_code env (mkArgs d (long_name a) p) /\
  printed env (mkArgs d a p) = printed env (mkArgs d (long_name a) p) /\
  remote_calls env (mkArgs d a p) = remote_calls env (mkArgs d (long_name a) p) /\
  run env (mkArgs false a p) = run env (mkArgs false (long_name a) p).
Proof.
  destruct (agree_main env (mkArgs d a p) (mkArgs d (long_name a) p) eq_refl
              (long_name_idempotent a) fresh fresh eq_refl eq_refl) as (Hres & Hout & Hsent).
  unfold exit_code, printed, remote_calls, run. rewrite Hres, Hout, Hsent.
  repeat split.
  destruct a; reflexivity.
Qed.

(** ** Failures of the transport and of the parser *)

(** X15: when the HTTP library raises for the request of the action (no
    connection, DNS, TLS), the run ends with status 1, standard output stays
    empty, nothing else is sent, and the last line on the error stream names
    the failed request with the library's message. *)
Theorem transport_failure_is_fatal (env : Env) (args : Args) (e : string) :
  os_path_exists env (args_path args) = true ->
  server env (request_of (args_action args) (target env args)) = RequestException e ->
  exit_code env args = 1%Z /\
  printed env args = [] /\
  remote_calls env args = [request_of (args_action args) (target env args)] /\
  last (diagnostics env args) EmptyString =
    match args_action args with
    | Act_l | Act_lock | Act_u | Act_unlock => "⛔ request failed: " ++ e
    | Act_q | Act_quick_album => "⛔ POST request failed: " ++ e
    | _ => "⛔ PROPFIND request failed: " ++ e
    end.
Proof.
  intros Hex Hsrv. unfold exit_code, printed, remote_calls, diagnostics, run.
  rewrite (main_existing env args fresh Hex).
  destruct (args_action args) eqn:Ha; cbn [request_of] in Hsrv |- *; enter_dispatch.
  1, 2, 3, 4:
    rewrite (bind_halt _ _ _ _ _ (getFileId_transport env args _ _ _ e Hsrv));
    streams; repeat split; rewrite !app_assoc; apply last_last.
  1, 2:
    proc_run;
    rewrite (bind_halt _ _ _ _ _
               (lockOrUnlock_transport env args _ _ _auth _ _ e lock_pair_lock Hsrv));
    streams; repeat split; rewrite !app_assoc; apply last_last.
  1, 2:
    proc_run;
    rewrite (bind_halt _ _ _ _ _ (sharePath_transport env args _ _ _ e Hsrv));
    streams; repeat split; rewrite !app_assoc; apply last_last.
  1, 2:
    proc_run;
    rewrite (bind_halt _ _ _ _ _
               (lockOrUnlock_transport env args _ _ _auth _ _ e lock_pair_unlock Hsrv));
    streams; repeat split; rewrite !app_assoc; apply last_last.
Qed.

Lemma transport_failure_is_fatal_refused :
  exit_code (fixed_env true cat_realpath (RequestException "Connection refused") unread)
    (mkArgs true Act_q "cat.jpg") = 1%Z /\
  printed (fixed_env true cat_realpath (RequestException "Connection refused") unread)
    (mkArgs true Act_q "cat.jpg") = [] /\
  remote_calls (fixed_env true cat_realpath (RequestException "Connection refused") unread)
    (mkArgs true Act_q "cat.jpg") = [share_request _auth "/photos/cat.jpg"] /\
  last (diagnostics (fixed_env true cat_realpath (RequestException "Connection refused") unread)
          (mkArgs true Act_q "cat.jpg")) EmptyString
  = "⛔ POST request failed: Connection refused".
Proof.
  apply (transport_failure_is_fatal
           (fixed_env true cat_realpath (RequestException "Connection refused") unread)
           (mkArgs true Act_q "cat.jpg") "Connection refused"); reflexivity.
Defined.

(** X16: for the actions that read an answer (the two links and the album),
    an accepted answer whose body the XML parser rejects ends the run with the
    parser's exception, which the script does not catch: exit status 1,
    nothing on standard output, one request sent, and no line of the script's
    own on the error stream beyond the debug lines. *)
Theorem malformed_answer_escapes (env : Env) (args : Args) (r : Response) :
  lock_family (args_action args) = false ->
  os_path_exists env (args_path args) = true ->
  server env (request_of (args_action args) (target env args)) = Answer r ->
  ok r = true ->
  fromstring env (text r) = None ->
  fst (run env args) = Halt (Uncaught "ParseError") /\
  exit_code env args = 1%Z /\
  printed env args = [] /\
  remote_calls env args = [request_of (args_action args) (target env args)] /\
  (args_debug args = false -> diagnostics env args = []).
Proof.
  intros Hfam Hex Hsrv Hok Hxml.
  unfold exit_code, printed, remote_calls, diagnostics, run.
  rewrite (main_existing env args fresh Hex).
  destruct (args_action args) eqn:Ha; try discriminate Hfam;
    cbn [request_of] in Hsrv |- *; enter_dispatch.
  1, 2, 3, 4:
    rewrite (bind_halt _ _ _ _ _ (getFileId_malformed env args _ _ _ r Hsrv Hok Hxml));
    streams; repeat split; quiet_lines.
  1, 2:
    proc_run;
    rewrite (bind_halt _ _ _ _ _ (sharePath_malformed env args _ _ _ r Hsrv Hok Hxml));
    streams; repeat split; quiet_lines.
Qed.

Lemma malformed_answer_escapes_html :
  fst (run (fixed_env true cat_realpath (Answer (mkResponse 200 "<html>")) unread)
         (mkArgs false Act_i "cat.jpg")) = Halt (Uncaught "ParseError").
Proof.
  exact (proj1 (malformed_answer_escapes
                  (fixed_env true cat_realpath (Answer (mkResponse 200 "<html>")) unread)
                  (mkArgs false Act_i "cat.jpg") (mkResponse 200 "<html>")
                  eq_refl eq_refl eq_refl eq_refl eq_refl)).
Defined.

(** ** Lock and unlock on success *)

(** X17: a lock or unlock that the server accepts ends with status 0, writes
    nothing to standard output and, without --debug, nothing to the error
    stream; its one request carries the method, the configured credentials,
    the header X-User-Lock: 1 and no body.  The body of the answer is never
    parsed: the outcome is the same whatever the parser would make of it. *)
Theorem lock_accepted_is_silent (env : Env) (args : Args) (method : string) (r : Response) :
  ((args_action args = Act_l \/ args_action args = Act_lock) /\ method = "LOCK") \/
  ((args_action args = Act_u \/ args_action args = Act_unlock) /\ method = "UNLOCK") ->
  os_path_exists env (args_path args) = true ->
  server env (lock_request method (fileurl_of (target env args))) = Answer r ->
  ok r = true ->
  fst (run env args) = Next tt /\
  exit_code env args = 0%Z /\
  printed env args = [] /\
  remote_calls env args =
    [mkRequest method (fileurl_of (target env args)) ("admin", "admin")
       [("X-User-Lock", "1")] NoData] /\
  (args_debug args = false -> diagnostics env args = []).
Proof.
  intros Ha Hex Hsrv Hok.
  unfold exit_code, printed, remote_calls, diagnostics, run.
  rewrite (main_existing env args fresh Hex).
  destruct Ha as [[Ha ->] | [Ha ->]].
  - rewrite (dispatch_lock env args _ _ _ Ha). proc_run.
    rewrite (bind_next _ _ _ _ _
               (lockOrUnlock_accepted env args _ _ _auth _ _ r lock_pair_lock Hsrv Hok)).
    proc_run. streams. repeat split. quiet_lines.
  - rewrite (dispatch_unlock env args _ _ _ Ha). proc_run.
    rewrite (bind_next _ _ _ _ _
               (lockOrUnlock_accepted env args _ _ _auth _ _ r lock_pair_unlock Hsrv Hok)).
    proc_run. streams. repeat split. quiet_lines.
Qed.

Lemma lock_accepted_is_silent_200 :
  fst (run (fixed_env true cat_realpath (Answer (mkResponse 200 "")) unread)
         (mkArgs false Act_l "cat.jpg")) = Next tt /\
  exit_code (fixed_env true cat_realpath (Answer (mkResponse 200 "")) unread)
    (mkArgs false Act_l "cat.jpg") = 0%Z /\
  printed (fixed_env true cat_realpath (Answer (mkResponse 200 "")) unread)
    (mkArgs false Act_l "cat.jpg") = [] /\
  remote_calls (fixed_env true cat_realpath (Answer (mkResponse 200 "")) unread)
    (mkArgs false Act_l "cat.jpg")
  = [mkRequest "LOCK" "http://localhost:8080/remote.php/dav/files/admin/photos/cat.jpg"
       ("admin", "admin") [("X-User-Lock", "1")] NoData] /\
  (false = false ->
   diagnostics (fixed_env true cat_realpath (Answer (mkResponse 200 "")) unread)
     (mkArgs false Act_l "cat.jpg") = []).
Proof.
  apply (lock_accepted_is_silent
           (fixed_env true cat_realpath (Answer (mkResponse 200 "")) unread)
           (mkArgs false Act_l "cat.jpg") "LOCK" (mkResponse 200 ""));
    [left; split; [left |]; reflexivity | reflexivity ..].
Defined.

(** ** The path check and the relative path, once more *)

(** X18: when the path does not exist, the usage text is the one thing
    written to standard output (print_usage writes there, not to the error
    stream), and the error stream holds no usage text: only the error
    message, after the debug line if there is one. *)
Theorem missing_path_prints_usage (env : Env) (args : Args) :
  os_path_exists env (args_path args) = false ->
  printed env args = [usage env] /\
  last (diagnostics env args) EmptyString = "⛔ Error: path does not exist" /\
  length (diagnostics env args) = (if args_debug args then 2 else 1)%nat.
Proof.
  intros Hex. unfold printed, diagnostics, run.
  rewrite (main_missing env args fresh Hex).
  cbn [snd emit fresh stdout stderr app].
  split; [reflexivity |]. split; [apply last_last |].
  unfold dbg. now destruct (args_debug args).
Qed.

Lemma missing_path_prints_usage_lock :
  printed (fixed_env false cat_realpath (Answer (mkResponse 200 "")) unread)
    (mkArgs true Act_lock "cat.jpg") = [usage_line] /\
  last (diagnostics (fixed_env false cat_realpath (Answer (mkResponse 200 "")) unread)
          (mkArgs true Act_lock "cat.jpg")) EmptyString = "⛔ Error: path does not exist" /\
  length (diagnostics (fixed_env false cat_realpath (Answer (mkResponse 200 "")) unread)
            (mkArgs true Act_lock "cat.jpg")) = 2%nat.
Proof.
  apply (missing_path_prints_usage
           (fixed_env false cat_realpath (Answer (mkResponse 200 "")) unread)
           (mkArgs true Act_lock "cat.jpg")).
  reflexivity.
Defined.

(** X19: a resolved path that does not mention the sync folder anywhere is
    addressed on the server by its own absolute path: the relative path is the
    path without its leading separator, and the WebDAV URL ends in it. *)
Theorem path_outside_sync_folder (r : string) :
  Py.contains "/home/user/Nextcloud" ("/" ++ r) = false ->
  at_boundary r = true ->
  relativePathOnly ("/" ++ r) = r /\
  fileurl_of (relativePathOnly ("/" ++ r))
  = "http://localhost:8080/remote.php/dav/files/admin/" ++ r.
Proof.
  intros Habsent Hb.
  assert (Hrel : relativePathOnly ("/" ++ r) = r).
  { unfold relativePathOnly, Py.re_sub, localSyncFolder.
    rewrite (sub_scan_absent _ _ _ Habsent).
    destruct r as [| c r]; [reflexivity |].
    cbn in Hb |- *. apply negb_true_iff in Hb. now rewrite Hb. }
  split; [exact Hrel |]. rewrite Hrel. reflexivity.
Qed.

Lemma path_outside_sync_folder_tmp :
  relativePathOnly "/tmp/notes.txt" = "tmp/notes.txt" /\
  fileurl_of (relativePathOnly "/tmp/notes.txt")
  = "http://localhost:8080/remote.php/dav/files/admin/tmp/notes.txt".
Proof.
  apply (path_outside_sync_folder "tmp/notes.txt"); reflexivity.
Defined.

(** X20: every request of every run goes to the configured server and carries
    the configured user name and password, also the lock and unlock requests,
    which take the credentials from the module and not from their
    parameter; and no run sends more than one request. *)
Theorem requests_go_to_the_configured_server (env : Env) (args : Args) :
  (length (remote_calls env args) <= 1)%nat /\
  forall req,
    In req (remote_calls env args) ->
    auth req = ("admin", "admin") /\
    prefix "http://localhost:8080/" (url req) = true.
Proof.
  unfold remote_calls.
  destruct (os_path_exists env (args_path args)) eqn:Hex.
  - destruct (run_existing_frame env args Hex) as (res & out & lines & Hrun & _).
    rewrite Hrun. cbn [snd sent length]. split; [constructor |].
    intros req [<- | []].
    destruct (args_action args); split; reflexivity.
  - unfold run. rewrite (main_missing env args fresh Hex).
    cbn [snd emit fresh sent app length]. split; [auto |]. intros req [].
Qed.

(** ** The album line for whatever the answer holds *)

(** X21: once the share answer is accepted and well-formed, the quick-album
    action always ends with status 0 and prints its one line, built from what
    findtext gives for token and file_source, each written as None when the
    answer has no such element; the url element of the answer is not used,
    and without --debug nothing goes to the error stream. *)
Theorem quick_album_prints_what_it_finds (env : Env) (args : Args) (r : Response)
    (root : ET.Element) :
  args_action args = Act_q \/ args_action args = Act_quick_album ->
  os_path_exists env (args_path args) = true ->
  server env (share_request _auth ("/" ++ target env args)) = Answer r ->
  ok r = true ->
  fromstring env (text r) = Some root ->
  let endpoint :=
    "http://localhost:8080/apps/files_sharing/publicpreview/"
      ++ Py.fmt (ET.findtext root "token")
      ++ "?file=/&fileId=" ++ Py.fmt (ET.findtext root "file_source") in
  printed env args =
    ["<a href=" ++ Py.dquote ++ (endpoint ++ "&x=4096&y=4096&a=true") ++ Py.dquote
       ++ "><img src=" ++ Py.dquote ++ (endpoint ++ "&x=300&y=300&a=true") ++ Py.dquote
       ++ "></a>"] /\
  exit_code env args = 0%Z /\
  (args_debug args = false -> diagnostics env args = []).
Proof.
  intros Ha Hex Hsrv Hok Hxml endpoint.
  unfold printed, exit_code, diagnostics, run.
  rewrite (main_existing env args fresh Hex).
  rewrite (dispatch_quick_album env args _ _ _ Ha).
  proc_run.
  rewrite (bind_next _ _ _ _ _ (sharePath_parsed env args _ _ _ r root Hsrv Hok Hxml)).
  proc_run. streams.
  split; [| split; [reflexivity | quiet_lines]].
  f_equal. subst endpoint. unfold album_link, large_image_url, preview_image_url.
  cbn [Py.join String.concat largeImageUrl previewImageUrl].
  rewrite !string_app_assoc. reflexivity.
Qed.

Lemma quick_album_prints_what_it_finds_empty :
  printed (fixed_env true cat_realpath (Answer (mkResponse 200 empty_body))
             (reading empty_body multistatus_empty))
    (mkArgs false Act_q "cat.jpg")
  = ["<a href=" ++ Py.dquote
       ++ "http://localhost:8080/apps/files_sharing/publicpreview/None?file=/&fileId=None&x=4096&y=4096&a=true"
       ++ Py.dquote ++ "><img src=" ++ Py.dquote
       ++ "http://localhost:8080/apps/files_sharing/publicpreview/None?file=/&fileId=None&x=300&y=300&a=true"
       ++ Py.dquote ++ "></a>"].
Proof.
  exact (proj1 (quick_album_prints_what_it_finds
                  (fixed_env true cat_realpath (Answer (mkResponse 200 empty_body))
                     (reading empty_body multistatus_empty))
                  (mkArgs false Act_q "cat.jpg") (mkResponse 200 empty_body) multistatus_empty
                  (or_introl eq_refl) eq_refl eq_refl eq_refl eq_refl)).
Defined.

(** ** The accepted range, operation by operation *)

(** X3: an answer with a status from 200 to 399 passes the status check of
    each of the three operations, so the run is decided by the body alone: a
    lock or unlock ends with status 0; the album action ends with status 0 as
    soon as the body is well-formed; the link actions end with status 0 when
    the body is well-formed and holds a fileid element below its root.  In
    each case exactly the one request was sent. *)
Theorem accepted_status_takes_success_path (env : Env) (args : Args) (r : Response) :
  os_path_exists env (args_path args) = true ->
  server env (request_of (args_action args) (target env args)) = Answer r ->
  (200 <= status_code r < 400)%Z ->
  remote_calls env args = [request_of (args_action args) (target env args)] /\
  match args_action args with
  | Act_l | Act_lock | Act_u | Act_unlock =>
      exit_code env args = 0%Z /\ printed env args = []
  | Act_q | Act_quick_album =>
      forall root,
        fromstring env (text r) = Some root ->
        exit_code env args = 0%Z /\ length (printed env args) = 1%nat
  | _ =>
      forall root id,
        fromstring env (text r) = Some root ->
        ET.first_below root "{http://owncloud.org/ns}fileid" id ->
        exit_code env args = 0%Z /\ length (printed env args) = 1%nat
  end.
Proof.
  intros Hex Hsrv Hst.
  assert (Hok : ok r = true) by (apply ok_true_iff; lia).
  split.
  { destruct (run_existing_frame env args Hex) as (res & out & lines & Hrun & _).
    unfold remote_calls. now rewrite Hrun. }
  unfold exit_code, printed, run.
  rewrite (main_existing env args fresh Hex).
  destruct (args_action args) eqn:Ha; cbn [request_of] in Hsrv |- *; enter_dispatch.
  1, 2, 3, 4:
    intros root id Hxml Hid; apply findtext_first in Hid;
    rewrite (bind_next _ _ _ _ _
               (getFileId_found env args _ _ _ r root _ Hsrv Hok Hxml Hid));
    proc_run; streams; split; reflexivity.
  1, 2:
    proc_run;
    rewrite (bind_next _ _ _ _ _
               (lockOrUnlock_accepted env args _ _ _auth _ _ r lock_pair_lock Hsrv Hok));
    proc_run; streams; split; reflexivity.
  1, 2:
    intros root Hxml; proc_run;
    rewrite (bind_next _ _ _ _ _ (sharePath_parsed env args _ _ _ r root Hsrv Hok Hxml));
    proc_run; streams; split; reflexivity.
  1, 2:
    proc_run;
    rewrite (bind_next _ _ _ _ _
               (lockOrUnlock_accepted env args _ _ _auth _ _ r lock_pair_unlock Hsrv Hok));
    proc_run; streams; split; reflexivity.
Qed.

Lemma accepted_status_takes_success_path_301 :
  remote_calls (fixed_env true cat_realpath (Answer (mkResponse 301 cat_body))
                  (reading cat_body multistatus_cat))
    (mkArgs false Act_h "cat.jpg")
  = [propfind_request _auth (fileurl_of "photos/cat.jpg")] /\
  exit_code (fixed_env true cat_realpath (Answer (mkResponse 301 cat_body))
               (reading cat_body multistatus_cat))
    (mkArgs false Act_h "cat.jpg") = 0%Z /\
  length (printed (fixed_env true cat_realpath (Answer (mkResponse 301 cat_body))
                     (reading cat_body multistatus_cat))
            (mkArgs false Act_h "cat.jpg")) = 1%nat.
Proof.
  destruct (accepted_status_takes_success_path
              (fixed_env true cat_realpath (Answer (mkResponse 301 cat_body))
                 (reading cat_body multistatus_cat))
              (mkArgs false Act_h "cat.jpg") (mkResponse 301 cat_body)
              eq_refl eq_refl ltac:(cbn; lia))
    as [Hcalls Hrun].
  split; [exact Hcalls |].
  exact (Hrun multistatus_cat (ET.Node fileid_tag (Some "42") []) eq_refl first_below_cat).
Defined.
